(** * Synchronous batch normalization (horovod/torch/sync_batch_norm.py)

    A shallow embedding of [SyncBatchNorm.forward], [_SyncBatchNorm.forward]
    and [_SyncBatchNorm.backward].  The torch kernels and the Horovod
    transport are external collaborators: they are Section variables.  What
    the Python code itself decides (validation, dispatch, the order of the
    collective calls, the shape of the backward result, the step counter) is
    modelled as written, in a small trace-and-exception monad. *)

From Stdlib Require Import String List ZArith QArith Bool Lia Field Lqa.
Import ListNotations.
Close Scope Q_scope.
Local Open Scope string_scope.
Local Open Scope nat_scope.
Local Open Scope list_scope.

(** ** Exceptions *)

(** The three [ValueError] messages of the file, with the value that
    [str.format] splices into them. *)
Inductive message : Type :=
| expected_input_on_GPU
    (* 'SyncBatchNorm expected input tensor to be on GPU' *)
| expected_at_least_2D (got : nat)
    (* 'expected at least 2D input (got {}D input)' *)
| expected_more_than_1_value_per_channel (got : nat).
    (* 'Expected more than 1 value per channel when training,
        got input size {}' *)

Inductive exn : Type :=
| ValueError (msg : message)
| ZeroDivisionError          (* [a // 0] *)
| IndexError.                (* [input.size(1)] on a tensor of rank < 2 *)

Inductive result (A : Type) : Type :=
| Ok (a : A)
| Raise (e : exn).
Arguments Ok {A} a.
Arguments Raise {A} e.

(** Python's [a // b] on non-negative integers. *)
Definition floordiv (a b : nat) : result nat :=
  match b with
  | O => Raise ZeroDivisionError
  | S _ => Ok (Nat.div a b)
  end.

(** [num_batches_tracked] is an int64 buffer: [+ 1] wraps around. *)
Definition wrap_int64 (z : Z) : Z :=
  ((z + 2 ^ 63) mod 2 ^ 64 - 2 ^ 63)%Z.

(** ** Forward inputs of the autograd function

    [_SyncBatchNorm.forward(self, input, weight, bias, running_mean,
    running_var, eps, momentum)]: the inputs after the context [self], in
    order.  The autograd engine keeps one [needs_input_grad] flag per
    input. *)
Inductive fwd_input : Type :=
| arg_input | arg_weight | arg_bias | arg_running_mean | arg_running_var
| arg_eps | arg_momentum.

Definition forward_inputs : list fwd_input :=
  [arg_input; arg_weight; arg_bias; arg_running_mean; arg_running_var;
   arg_eps; arg_momentum].

(** Which inputs are tensors that can carry a gradient at all: [eps] and
    [momentum] are Python floats. *)
Definition is_tensor_input (a : fwd_input) : bool :=
  match a with
  | arg_eps | arg_momentum => false
  | _ => true
  end.

(** ** A two-worker sample run

    Concrete stand-ins for the external collaborators, used to run the
    model on concrete inputs: tensors carry their device, their shape and a
    label saying which kernel made them. *)
Module Sample.

Record tensor : Type := mk_tensor
  { on_gpu : bool; dims : list nat; label : string }.

Definition channels (t : tensor) : nat := nth 1 (dims t) 0.

Definition unsqueeze0 (t : tensor) : tensor :=
  mk_tensor (on_gpu t) (1 :: dims t) (label t).

Definition batch_norm_stats (t : tensor) (e : Q) : tensor * tensor :=
  (mk_tensor (on_gpu t) [channels t] "mean",
   mk_tensor (on_gpu t) [channels t] "invstd").

Definition batch_norm_gather_stats_with_counts
    (input mean_all invstd_all : tensor) (rm rv : option tensor)
    (momentum : option Q) (e : Q) (counts : list nat)
  : (tensor * tensor) * (option tensor * option tensor) :=
  ((mk_tensor (on_gpu input) [channels input] "global_mean",
    mk_tensor (on_gpu input) [channels input] "global_invstd"),
   (rm, rv)).

Definition batch_norm_elemt (input : tensor) (w b : option tensor)
    (mean invstd : tensor) (e : Q) : tensor :=
  mk_tensor (on_gpu input) (dims input) "normalized".

Definition batch_norm_backward_reduce (go x mean invstd : tensor)
    (w : option tensor) (input_g weight_g bias_g : bool)
  : tensor * tensor * option tensor * option tensor :=
  (mk_tensor (on_gpu x) [channels x] "mean_dy",
   mk_tensor (on_gpu x) [channels x] "mean_dy_xmu",
   if weight_g
   then Some (mk_tensor (on_gpu x) [channels x] "grad_weight") else None,
   if bias_g
   then Some (mk_tensor (on_gpu x) [channels x] "grad_bias") else None).

Definition batch_norm_backward_elemt (go x mean invstd : tensor)
    (w : option tensor) (mean_dy mean_dy_xmu : tensor) : tensor :=
  mk_tensor (on_gpu x) (dims x) "grad_input".

Definition F_batch_norm (input : tensor) (rm rv w b : option tensor)
    (use_batch_stats : bool) (momentum : option Q) (e : Q)
  : tensor * (option tensor * option tensor) :=
  (mk_tensor (on_gpu input) (dims input) "batch_norm", (rm, rv)).

(** This worker has rank 0; its one peer holds five values per
    channel. *)
Definition size : nat := 2.
Definition allgather_counts (name : string) (rows : list (list nat))
  : list (list nat) := rows ++ [[5]].
Definition allgather (name : string) (t : tensor) : tensor :=
  mk_tensor (on_gpu t) (2 * hd 0 (dims t) :: tl (dims t)) (label t).
Definition allreduce (name : string) (t : tensor) : tensor := t.

Definition gpu_tensor (shape : list nat) : tensor :=
  mk_tensor true shape "input".
Definition cpu_tensor (shape : list nat) : tensor :=
  mk_tensor false shape "input".

Definition needs_all (a : fwd_input) : bool := is_tensor_input a.
Definition needs_none (a : fwd_input) : bool := false.

End Sample.

(** ** Combining per-worker statistics

    One channel, in exact rational arithmetic.  A shard is the list of the
    values of the channel that one worker holds. *)
Module GatherStats.
Local Open Scope Q_scope.

(** Mean and (population) variance of one batch. *)
Definition sumQ (l : list Q) : Q := fold_right Qplus 0 l.
Definition cardinal (l : list Q) : Q := inject_Z (Z.of_nat (length l)).
Definition mean (l : list Q) : Q := sumQ l / cardinal l.
Definition variance (l : list Q) : Q :=
  sumQ (map (fun x => (x - mean l) * (x - mean l)) l) / cardinal l.

(** What one worker contributes: its count, mean and variance. *)
Record local_stats : Type := mk_local_stats
  { count : nat; l_mean : Q; l_var : Q }.

(** Modelled from the spec: the local-statistics kernel
    [torch.batch_norm_stats] is not part of the source file; per channel it
    yields the mean and the variance of the shard (the spec's LocalStats,
    with the variance in place of the inverse deviation derived from
    it). *)
Definition batch_norm_stats (shard : list Q) : local_stats :=
  mk_local_stats (length shard) (mean shard) (variance shard).

(** One step of Chan's parallel merge: fold one worker's statistics into
    the running [(total, avg, m2)], where [m2] is the sum of squared
    deviations from [avg]. *)
Definition chan_merge (acc : Q * Q * Q) (w : local_stats) : Q * Q * Q :=
  let '(total, avg, m2) := acc in
  let n := inject_Z (Z.of_nat (count w)) in
  let factor := 1 / (n + total) in
  (total + n,
   n * factor * l_mean w + total * factor * avg,
   m2 + l_var w * n
   + (avg - l_mean w) * (avg - l_mean w) * n * total * factor).

(** Modelled from the spec: the kernel
    [torch.batch_norm_gather_stats_with_counts] is not part of the source
    file.  Section 4.1, step 4: the per-worker statistics are combined by
    the parallel mean/variance merge, accumulated in a single pass over
    the workers with the full per-worker count vector.  It returns the
    global mean and the global (population) variance. *)
Definition batch_norm_gather_stats_with_counts (ws : list local_stats)
  : Q * Q :=
  let '(total, avg, m2) := fold_left chan_merge ws (0, 0, 0) in
  (avg, m2 / total).

(** The closed forms the spec names: the count-weighted average of the
    worker means, and the weighted average of the worker variances plus the
    weighted variance of the worker means. *)
Definition total_count (ws : list local_stats) : Q :=
  sumQ (map (fun w => inject_Z (Z.of_nat (count w))) ws).
Definition weighted_mean (ws : list local_stats) : Q :=
  sumQ (map (fun w => inject_Z (Z.of_nat (count w)) * l_mean w) ws)
  / total_count ws.
Definition chan_variance (ws : list local_stats) : Q :=
  sumQ (map (fun w =>
               inject_Z (Z.of_nat (count w))
               * (l_var w
                  + (l_mean w - weighted_mean ws)
                    * (l_mean w - weighted_mean ws))) ws)
  / total_count ws.

(** Proof-side notions: the sum of squares of a batch, and what it means
    for an accumulator [(total, avg, m2)] of the pass to stand for the
    batch [l]. *)
Definition sumsq (l : list Q) : Q := sumQ (map (fun x => x * x) l).

Definition merged (acc : Q * Q * Q) (l : list Q) : Prop :=
  let '(total, avg, m2) := acc in
  total == cardinal l /\ avg * total == sumQ l /\
  m2 == sumsq l - avg * sumQ l.

End GatherStats.

Section SyncBatchNorm.

(** *** Tensors and scalars *)
Variable Tensor : Type.     (* a float tensor; its values are opaque *)
Variable Float : Type.      (* a Python float *)
Variable is_cuda : Tensor -> bool.
Variable shape : Tensor -> list nat.

Definition dim (t : Tensor) : nat := length (shape t).
Definition numel (t : Tensor) : nat := fold_right Nat.mul 1 (shape t).
(** [t.size(i)] *)
Definition tsize (t : Tensor) (i : nat) : result nat :=
  match nth_error (shape t) i with
  | Some n => Ok n
  | None => Raise IndexError
  end.
(** [t.contiguous()] changes the memory layout only. *)
Definition contiguous (t : Tensor) : Tensor := t.

(** *** torch kernels (external) *)
Variable unsqueeze0 : Tensor -> Tensor.      (* [t.unsqueeze(0)] *)
Variable batch_norm_stats : Tensor -> Float -> Tensor * Tensor.
(** Returns [(mean, invstd)]; the kernel updates [running_mean] and
    [running_var] in place, which is returned as the second component. *)
Variable batch_norm_gather_stats_with_counts :
  Tensor -> Tensor -> Tensor -> option Tensor -> option Tensor ->
  option Float -> Float -> list nat ->
  (Tensor * Tensor) * (option Tensor * option Tensor).
Variable batch_norm_elemt :
  Tensor -> option Tensor -> option Tensor -> Tensor -> Tensor -> Float ->
  Tensor.
(** Returns [(mean_dy, mean_dy_xmu, grad_weight, grad_bias)]. *)
Variable batch_norm_backward_reduce :
  Tensor -> Tensor -> Tensor -> Tensor -> option Tensor ->
  bool -> bool -> bool ->
  Tensor * Tensor * option Tensor * option Tensor.
Variable batch_norm_backward_elemt :
  Tensor -> Tensor -> Tensor -> Tensor -> option Tensor -> Tensor ->
  Tensor -> Tensor.
(** [F.batch_norm(input, running_mean, running_var, weight, bias,
    training, momentum, eps)]: the output, and the running statistics
    after the call (updated in place when [training] is set). *)
Variable F_batch_norm :
  Tensor -> option Tensor -> option Tensor -> option Tensor ->
  option Tensor -> bool -> option Float -> Float ->
  Tensor * (option Tensor * option Tensor).

(** *** Horovod transport (external) *)
Variable size : nat.                                   (* [size()] *)
(** What the peers make of this worker's contribution, per operation
    name: the rows gathered in rank order, resp. the reduced tensor. *)
Variable allgather_counts : string -> list (list nat) -> list (list nat).
Variable allgather : string -> Tensor -> Tensor.
Variable allreduce : string -> Tensor -> Tensor.

(** *** Effects: a trace of transport calls, and exceptions *)
Inductive payload : Type :=
| int_tensor (rows : list (list nat))
| float_tensor (t : Tensor).

Inductive event : Type :=
| ev_allgather_async (name : string) (p : payload)
| ev_allreduce_async (name : string) (p : payload)
| ev_synchronize (name : string).

Definition M (A : Type) : Type := (list event * result A)%type.

Definition ret {A} (a : A) : M A := ([], Ok a).
Definition raise {A} (e : exn) : M A := ([], Raise e).
Definition bind {A B} (m : M A) (f : A -> M B) : M B :=
  match m with
  | (t, Ok a) => let (t', r) := f a in (t ++ t', r)
  | (t, Raise e) => (t, Raise e)
  end.
Definition emit (e : event) : M unit := ([e], Ok tt).
Definition lift {A} (r : result A) : M A := ([], r).

Definition trace {A} (m : M A) : list event := fst m.
Definition outcome {A} (m : M A) : result A := snd m.

Notation "x <- c1 ;; c2" := (bind c1 (fun x => c2))
  (at level 61, c1 at next level, right associativity).
Notation "c1 ;;; c2" := (bind c1 (fun _ => c2))
  (at level 61, right associativity).

(** A handle is a future: the operation's name and what [synchronize]
    will hand back. *)
Record handle (A : Type) : Type := mk_handle
  { h_name : string; h_output : A }.
Arguments mk_handle {A}.
Arguments h_name {A}.
Arguments h_output {A}.

Definition allgather_async (t : Tensor) (name : string) : M (handle Tensor) :=
  emit (ev_allgather_async name (float_tensor t)) ;;;
  ret (mk_handle name (allgather name t)).

Definition allgather_async_int (rows : list (list nat)) (name : string)
  : M (handle (list (list nat))) :=
  emit (ev_allgather_async name (int_tensor rows)) ;;;
  ret (mk_handle name (allgather_counts name rows)).

Definition allreduce_async (t : Tensor) (name : string) : M (handle Tensor) :=
  emit (ev_allreduce_async name (float_tensor t)) ;;;
  ret (mk_handle name (allreduce name t)).

Definition synchronize {A} (h : handle A) : M A :=
  emit (ev_synchronize (h_name h)) ;;;
  ret (h_output h).

Definition is_collective_issue (e : event) : bool :=
  match e with
  | ev_allgather_async _ _ | ev_allreduce_async _ _ => true
  | ev_synchronize _ => false
  end.

(** *** The autograd context *)
Record Ctx : Type := mk_ctx
  { needs_input_grad : fwd_input -> bool;
    (** [input, weight, mean, invstd] *)
    saved_tensors : Tensor * option Tensor * Tensor * Tensor }.

Definition is_None {A} (o : option A) : bool :=
  match o with None => true | Some _ => false end.

(** [input.numel() // input.size(1)] *)
Definition per_channel_count (input : Tensor) : result nat :=
  match tsize input 1 with
  | Ok channels => floordiv (numel input) channels
  | Raise e => Raise e
  end.

(** *** [_SyncBatchNorm.forward] *)
Record sync_output : Type := mk_sync_output
  { so_ctx : Ctx;
    so_output : Tensor;
    so_running_mean : option Tensor;
    so_running_var : option Tensor }.

Definition _SyncBatchNorm_forward (needs : fwd_input -> bool)
    (input : Tensor) (weight bias running_mean running_var : option Tensor)
    (eps : Float) (momentum : option Float) : M sync_output :=
  let input := contiguous input in
  size <- lift (per_channel_count input) ;;
  if Nat.eqb size 1 then
    raise (ValueError (expected_more_than_1_value_per_channel size))
  else
    let count := [size] in
    let '(mean, invstd) := batch_norm_stats input eps in
    count_handle <- allgather_async_int [count] "sync_batch_norm.count" ;;
    mean_handle <- allgather_async (unsqueeze0 mean) "sync_batch_norm.mean" ;;
    invstd_handle <-
      allgather_async (unsqueeze0 invstd) "sync_batch_norm.invstd" ;;
    count_all <- synchronize count_handle ;;
    mean_all <- synchronize mean_handle ;;
    invstd_all <- synchronize invstd_handle ;;
    let '((mean, invstd), (running_mean', running_var')) :=
      batch_norm_gather_stats_with_counts
        input mean_all invstd_all running_mean running_var momentum eps
        (concat count_all) in
    ret (mk_sync_output
           (mk_ctx needs (input, weight, mean, invstd))
           (batch_norm_elemt input weight bias mean invstd eps)
           running_mean' running_var').

(** *** [_SyncBatchNorm.backward] *)
Definition _SyncBatchNorm_backward (self : Ctx) (grad_output : Tensor)
  : M (list (option Tensor)) :=
  let grad_output := contiguous grad_output in
  let '(saved_input, weight, mean, invstd) := saved_tensors self in
  let '(mean_dy, mean_dy_xmu, grad_weight, grad_bias) :=
    batch_norm_backward_reduce
      grad_output saved_input mean invstd weight
      (needs_input_grad self arg_input)
      (needs_input_grad self arg_weight)
      (needs_input_grad self arg_bias) in
  grad_input <-
    (if needs_input_grad self arg_input then
       mean_dy_handle <- allreduce_async mean_dy "sync_batch_norm.mean_dy" ;;
       mean_dy_xmu_handle <-
         allreduce_async mean_dy_xmu "sync_batch_norm.mean_dy_xmu" ;;
       mean_dy <- synchronize mean_dy_handle ;;
       mean_dy_xmu <- synchronize mean_dy_xmu_handle ;;
       ret (Some (batch_norm_backward_elemt
                    grad_output saved_input mean invstd weight
                    mean_dy mean_dy_xmu))
     else ret None) ;;
  let grad_weight :=
    if is_None weight || negb (needs_input_grad self arg_weight)
    then None else grad_weight in
  let grad_bias :=
    if is_None weight || negb (needs_input_grad self arg_bias)
    then None else grad_bias in
  ret [grad_input; grad_weight; grad_bias;
       None; None; None; None; None; None].

(** *** The module [SyncBatchNorm] *)
Record SyncBatchNorm : Type := mk_module
  { training : bool;
    track_running_stats : bool;
    num_batches_tracked : Z;
    running_mean : option Tensor;
    running_var : option Tensor;
    weight : option Tensor;
    bias : option Tensor;
    momentum : option Float;
    eps : Float }.

Definition set_num_batches_tracked (self : SyncBatchNorm) (n : Z) :=
  mk_module (training self) (track_running_stats self) n
            (running_mean self) (running_var self)
            (weight self) (bias self) (momentum self) (eps self).

Definition set_running_stats (self : SyncBatchNorm)
    (rm rv : option Tensor) :=
  mk_module (training self) (track_running_stats self)
            (num_batches_tracked self) rm rv
            (weight self) (bias self) (momentum self) (eps self).

Definition _check_input_dim (input : Tensor) : result unit :=
  if Nat.ltb (dim input) 2 then
    Raise (ValueError (expected_at_least_2D (dim input)))
  else Ok tt.

(** [_SyncBatchNorm.apply(...)] as seen by the module: the output, with
    the context kept for backward. *)
Definition _SyncBatchNorm_apply (m : M sync_output)
  : M (option Ctx * Tensor) :=
  so <- m ;; ret (Some (so_ctx so), so_output so).

(** The module after the call (attribute assignments and in-place updates
    survive an exception), and the trace and outcome of the call.  The
    plain path keeps no context of this file's autograd function. *)
Definition SyncBatchNorm_forward (needs : fwd_input -> bool)
    (self : SyncBatchNorm) (input : Tensor)
  : SyncBatchNorm * M (option Ctx * Tensor) :=
  if negb (is_cuda input) then
    (self, raise (ValueError expected_input_on_GPU))
  else
    match _check_input_dim input with
    | Raise e => (self, raise e)
    | Ok _ =>
      let self :=
        if training self && track_running_stats self then
          set_num_batches_tracked
            self (wrap_int64 (num_batches_tracked self + 1))
        else self in
      if Nat.eqb size 1 || (negb (training self) && track_running_stats self)
      then
        let '(out, (rm, rv)) :=
          F_batch_norm
            input (running_mean self) (running_var self)
            (weight self) (bias self)
            (training self || negb (track_running_stats self))
            (momentum self) (eps self) in
        (set_running_stats self rm rv, ret (None, out))
      else
        let r :=
          _SyncBatchNorm_forward
            needs input (weight self) (bias self)
            (running_mean self) (running_var self)
            (eps self) (momentum self) in
        (match outcome r with
         | Ok so =>
           set_running_stats self (so_running_mean so) (so_running_var so)
         | Raise _ => self
         end,
         _SyncBatchNorm_apply r)
    end.

(** *** What a run of the synchronized path looks like

    The events and the global statistics of a run of
    [_SyncBatchNorm.forward] that gets past its check with per-channel
    count [n]; used to state the theorems below. *)
Definition local_mean (input : Tensor) (eps : Float) : Tensor :=
  fst (batch_norm_stats (contiguous input) eps).
Definition local_invstd (input : Tensor) (eps : Float) : Tensor :=
  snd (batch_norm_stats (contiguous input) eps).

Definition sync_forward_events (input : Tensor) (eps : Float) (n : nat)
  : list event :=
  [ ev_allgather_async "sync_batch_norm.count" (int_tensor [[n]]);
    ev_allgather_async "sync_batch_norm.mean"
      (float_tensor (unsqueeze0 (local_mean input eps)));
    ev_allgather_async "sync_batch_norm.invstd"
      (float_tensor (unsqueeze0 (local_invstd input eps)));
    ev_synchronize "sync_batch_norm.count";
    ev_synchronize "sync_batch_norm.mean";
    ev_synchronize "sync_batch_norm.invstd" ].

Definition gathered_stats (input : Tensor)
    (running_mean running_var : option Tensor)
    (momentum : option Float) (eps : Float) (n : nat) :=
  batch_norm_gather_stats_with_counts
    (contiguous input)
    (allgather "sync_batch_norm.mean" (unsqueeze0 (local_mean input eps)))
    (allgather "sync_batch_norm.invstd"
       (unsqueeze0 (local_invstd input eps)))
    running_mean running_var momentum eps
    (concat (allgather_counts "sync_batch_norm.count" [[n]])).

Definition global_mean input rm rv mom eps n : Tensor :=
  fst (fst (gathered_stats input rm rv mom eps n)).
Definition global_invstd input rm rv mom eps n : Tensor :=
  snd (fst (gathered_stats input rm rv mom eps n)).

Definition event_name (e : event) : string :=
  match e with
  | ev_allgather_async name _ | ev_allreduce_async name _
  | ev_synchronize name => name
  end.

Definition is_allgather (e : event) : bool :=
  match e with ev_allgather_async _ _ => true | _ => false end.

Definition is_synchronize (e : event) : bool :=
  match e with ev_synchronize _ => true | _ => false end.

(** The module once the step counter is bumped (lines 60-61). *)
Definition count_batch (self : SyncBatchNorm) : SyncBatchNorm :=
  if training self && track_running_stats self then
    set_num_batches_tracked self (wrap_int64 (num_batches_tracked self + 1))
  else self.

(** The condition of line 63. *)
Definition plain_path (self : SyncBatchNorm) : bool :=
  Nat.eqb size 1 || (negb (training self) && track_running_stats self).

(** The local reduction of [backward] (lines 119-128), and its parts. *)
Definition saved_weight (self : Ctx) : option Tensor :=
  snd (fst (fst (saved_tensors self))).

Definition local_reduce (self : Ctx) (grad_output : Tensor) :=
  let '(saved_input, weight, mean, invstd) := saved_tensors self in
  batch_norm_backward_reduce
    (contiguous grad_output) saved_input mean invstd weight
    (needs_input_grad self arg_input)
    (needs_input_grad self arg_weight)
    (needs_input_grad self arg_bias).

Definition reduce_mean_dy
    (r : Tensor * Tensor * option Tensor * option Tensor) : Tensor :=
  fst (fst (fst r)).
Definition reduce_mean_dy_xmu
    (r : Tensor * Tensor * option Tensor * option Tensor) : Tensor :=
  snd (fst (fst r)).
Definition reduce_grad_weight
    (r : Tensor * Tensor * option Tensor * option Tensor) : option Tensor :=
  snd (fst r).
Definition reduce_grad_bias
    (r : Tensor * Tensor * option Tensor * option Tensor) : option Tensor :=
  snd r.

Definition backward_events (self : Ctx) (grad_output : Tensor)
  : list event :=
  [ ev_allreduce_async "sync_batch_norm.mean_dy"
      (float_tensor (reduce_mean_dy (local_reduce self grad_output)));
    ev_allreduce_async "sync_batch_norm.mean_dy_xmu"
      (float_tensor (reduce_mean_dy_xmu (local_reduce self grad_output)));
    ev_synchronize "sync_batch_norm.mean_dy";
    ev_synchronize "sync_batch_norm.mean_dy_xmu" ].

(** The input gradient of [backward], from the reduced intermediates
    (lines 136-148). *)
Definition synced_grad_input (self : Ctx) (grad_output : Tensor) : Tensor :=
  let '(saved_input, weight, mean, invstd) := saved_tensors self in
  batch_norm_backward_elemt
    (contiguous grad_output) saved_input mean invstd weight
    (allreduce "sync_batch_norm.mean_dy"
       (reduce_mean_dy (local_reduce self grad_output)))
    (allreduce "sync_batch_norm.mean_dy_xmu"
       (reduce_mean_dy_xmu (local_reduce self grad_output))).

(** *** The runs of the module's forward

    One constructor per way through lines 53-70 and 76-110: the module
    left behind, the transport trace and the outcome of each. *)
Inductive forward_run (needs : fwd_input -> bool) (self : SyncBatchNorm)
    (input : Tensor)
  : SyncBatchNorm * M (option Ctx * Tensor) -> Prop :=
| run_not_on_gpu :
    is_cuda input = false ->
    forward_run needs self input
      (self, ([], Raise (ValueError expected_input_on_GPU)))
| run_rank_below_2 :
    is_cuda input = true -> dim input < 2 ->
    forward_run needs self input
      (self, ([], Raise (ValueError (expected_at_least_2D (dim input)))))
| run_plain out rm rv :
    is_cuda input = true -> 2 <= dim input ->
    plain_path self = true ->
    F_batch_norm input (running_mean self) (running_var self)
                 (weight self) (bias self)
                 (training self || negb (track_running_stats self))
                 (momentum self) (eps self) = (out, (rm, rv)) ->
    forward_run needs self input
      (set_running_stats (count_batch self) rm rv, ([], Ok (None, out)))
| run_no_count x :
    is_cuda input = true -> 2 <= dim input ->
    plain_path self = false ->
    per_channel_count input = Raise x ->
    forward_run needs self input (count_batch self, ([], Raise x))
| run_one_sample :
    is_cuda input = true -> 2 <= dim input ->
    plain_path self = false ->
    per_channel_count input = Ok 1 ->
    forward_run needs self input
      (count_batch self,
       ([], Raise (ValueError (expected_more_than_1_value_per_channel 1))))
| run_synchronized n :
    is_cuda input = true -> 2 <= dim input ->
    plain_path self = false ->
    per_channel_count input = Ok n -> n <> 1 ->
    forward_run needs self input
      (set_running_stats
         (count_batch self)
         (fst (snd (gathered_stats input (running_mean self)
                      (running_var self) (momentum self) (eps self) n)))
         (snd (snd (gathered_stats input (running_mean self)
                      (running_var self) (momentum self) (eps self) n))),
       (sync_forward_events input (eps self) n,
        Ok (Some (mk_ctx needs
                    (contiguous input, weight self,
                     global_mean input (running_mean self)
                       (running_var self) (momentum self) (eps self) n,
                     global_invstd input (running_mean self)
                       (running_var self) (momentum self) (eps self) n)),
            batch_norm_elemt
              (contiguous input) (weight self) (bias self)
              (global_mean input (running_mean self)
                 (running_var self) (momentum self) (eps self) n)
              (global_invstd input (running_mean self)
                 (running_var self) (momentum self) (eps self) n)
              (eps self)))).

(** Every issued operation is waited on: the trace is a block of issues
    followed by the waits on the same names in the same order. *)
Definition is_allreduce (e : event) : bool :=
  match e with ev_allreduce_async _ _ => true | _ => false end.


(** The product of a list of dimensions. *)
Definition prod (l : list nat) : nat := fold_right Nat.mul 1 l.

(** ** Properties *)

Lemma wrap_int64_succ_neq (z : Z) : wrap_int64 (z + 1) <> z.
Proof.
  unfold wrap_int64. intro H.
  pose proof (Z.mod_pos_bound (z + 1 + 2 ^ 63) (2 ^ 64) ltac:(lia)) as B.
  pose proof (Z.div_mod (z + 1 + 2 ^ 63) (2 ^ 64) ltac:(lia)) as D.
  lia.
Qed.

Lemma count_batch_fields (self : SyncBatchNorm) :
  training (count_batch self) = training self /\
  track_running_stats (count_batch self) = track_running_stats self /\
  running_mean (count_batch self) = running_mean self /\
  running_var (count_batch self) = running_var self /\
  weight (count_batch self) = weight self /\
  bias (count_batch self) = bias self /\
  momentum (count_batch self) = momentum self /\
  eps (count_batch self) = eps self.
Proof.
  unfold count_batch.
  destruct (training self && track_running_stats self); simpl; tauto.
Qed.

(** A run of [_SyncBatchNorm.forward] whose per-channel count is not 1. *)
Lemma sync_forward_past_check needs input w b rm rv e mom n :
  per_channel_count input = Ok n -> n <> 1 ->
  _SyncBatchNorm_forward needs input w b rm rv e mom =
  (sync_forward_events input e n,
   Ok (mk_sync_output
         (mk_ctx needs (contiguous input, w,
                        global_mean input rm rv mom e n,
                        global_invstd input rm rv mom e n))
         (batch_norm_elemt (contiguous input) w b
            (global_mean input rm rv mom e n)
            (global_invstd input rm rv mom e n) e)
         (fst (snd (gathered_stats input rm rv mom e n)))
         (snd (snd (gathered_stats input rm rv mom e n))))).
Proof.
  intros Hn Hne.
  unfold _SyncBatchNorm_forward, global_mean, global_invstd, gathered_stats,
    sync_forward_events, local_mean, local_invstd.
  unfold contiguous in *. rewrite Hn. simpl.
  apply Nat.eqb_neq in Hne. rewrite Hne.
  destruct (batch_norm_stats input e) as [mean invstd]. simpl.
  destruct (batch_norm_gather_stats_with_counts _ _ _ _ _ _ _ _)
    as [[gm gi] [rm' rv']].
  reflexivity.
Qed.

(** A run whose per-channel count is 1 stops at the check. *)
Lemma sync_forward_one_sample needs input w b rm rv e mom :
  per_channel_count input = Ok 1 ->
  _SyncBatchNorm_forward needs input w b rm rv e mom =
  ([], Raise (ValueError (expected_more_than_1_value_per_channel 1))).
Proof.
  intros Hn. unfold _SyncBatchNorm_forward, contiguous.
  rewrite Hn. reflexivity.
Qed.

(** A run in which the count itself cannot be computed. *)
Lemma sync_forward_no_count needs input w b rm rv e mom x :
  per_channel_count input = Raise x ->
  _SyncBatchNorm_forward needs input w b rm rv e mom = ([], Raise x).
Proof.
  intros Hn. unfold _SyncBatchNorm_forward, contiguous.
  rewrite Hn. reflexivity.
Qed.

(** Whatever [_SyncBatchNorm.forward] raises, it raises with an empty
    trace. *)
Lemma sync_forward_raise_trace needs input w b rm rv e mom x :
  outcome (_SyncBatchNorm_forward needs input w b rm rv e mom) = Raise x ->
  trace (_SyncBatchNorm_forward needs input w b rm rv e mom) = [].
Proof.
  destruct (per_channel_count input) as [n|y] eqn:Hn.
  - destruct (Nat.eq_dec n 1) as [->|Hne].
    + rewrite sync_forward_one_sample by assumption. reflexivity.
    + rewrite sync_forward_past_check with (n := n) by assumption.
      discriminate.
  - rewrite sync_forward_no_count with (x := y) by assumption.
    reflexivity.
Qed.

(** The module's forward, once the device and rank checks are passed. *)
Lemma forward_checked needs self input :
  is_cuda input = true -> 2 <= dim input ->
  SyncBatchNorm_forward needs self input =
  let self' := count_batch self in
  if plain_path self' then
    let '(out, (rm, rv)) :=
      F_batch_norm
        input (running_mean self') (running_var self')
        (weight self') (bias self')
        (training self' || negb (track_running_stats self'))
        (momentum self') (eps self') in
    (set_running_stats self' rm rv, ret (None, out))
  else
    let r :=
      _SyncBatchNorm_forward
        needs input (weight self') (bias self')
        (running_mean self') (running_var self')
        (eps self') (momentum self') in
    (match outcome r with
     | Ok so =>
       set_running_stats self' (so_running_mean so) (so_running_var so)
     | Raise _ => self'
     end,
     _SyncBatchNorm_apply r).
Proof.
  intros Hc Hd. unfold SyncBatchNorm_forward, _check_input_dim.
  rewrite Hc. simpl.
  assert (Nat.ltb (dim input) 2 = false) as -> by (apply Nat.ltb_ge; lia).
  reflexivity.
Qed.

Lemma plain_path_count_batch self :
  plain_path (count_batch self) = plain_path self.
Proof.
  unfold plain_path.
  destruct (count_batch_fields self) as (-> & -> & _). reflexivity.
Qed.

Lemma plain_path_true self :
  plain_path self = true <->
  size = 1 \/ (training self = false /\ track_running_stats self = true).
Proof.
  unfold plain_path.
  rewrite orb_true_iff, andb_true_iff, negb_true_iff, Nat.eqb_eq.
  tauto.
Qed.

Lemma sync_apply_trace (m : M sync_output) :
  trace (_SyncBatchNorm_apply m) = trace m.
Proof.
  destruct m as [t [so|e]]; simpl; [apply app_nil_r | reflexivity].
Qed.

Lemma sync_apply_raise (m : M sync_output) x :
  outcome m = Raise x -> _SyncBatchNorm_apply m = (trace m, Raise x).
Proof.
  destruct m as [t [so|e]]; simpl; [discriminate|].
  intros [= ->]. reflexivity.
Qed.

(** Whatever the module's forward raises, it raises with an empty
    trace. *)
Lemma forward_raise_trace needs self input x :
  outcome (snd (SyncBatchNorm_forward needs self input)) = Raise x ->
  trace (snd (SyncBatchNorm_forward needs self input)) = [].
Proof.
  unfold SyncBatchNorm_forward.
  destruct (is_cuda input); simpl; [|reflexivity].
  destruct (_check_input_dim input); [|reflexivity].
  match goal with |- context [if ?c then _ else _] => destruct c end.
  - destruct (F_batch_norm _ _ _ _ _ _ _ _) as [out [rm rv]].
    discriminate.
  - simpl.
    match goal with
    | |- context [_SyncBatchNorm_apply ?m] =>
        rewrite sync_apply_trace; destruct m as [t [so|y]] eqn:E
    end; simpl; [discriminate|].
    intros _.
    match type of E with
    | ?m = _ =>
        pose proof (sync_forward_raise_trace
                      needs input _ _ _ _ _ _ y
                      ltac:(rewrite E; reflexivity)) as T;
        rewrite E in T; exact T
    end.
Qed.

(** C1.  For every forward call that gets past the device and rank
    checks: if the worker count is 1, or training mode is off while
    track_running_stats is on, the call is one call of the plain local
    batch normalization [F.batch_norm] on the module's existing running
    statistics, told to use batch statistics when not tracking (and to
    use the running statistics in evaluation mode with tracking), and no
    transport call is made; in every other case the call is a call of
    the synchronized path [_SyncBatchNorm.apply]. *)
Theorem forward_dispatch needs self input :
  is_cuda input = true -> 2 <= dim input ->
  (size = 1 \/ (training self = false /\ track_running_stats self = true) ->
   snd (SyncBatchNorm_forward needs self input) =
     ([], Ok (None,
              fst (F_batch_norm
                     input (running_mean self) (running_var self)
                     (weight self) (bias self)
                     (training self || negb (track_running_stats self))
                     (momentum self) (eps self)))) /\
   (track_running_stats self = false ->
    training self || negb (track_running_stats self) = true) /\
   (training self = false -> track_running_stats self = true ->
    training self || negb (track_running_stats self) = false)) /\
  (~ (size = 1 \/
      (training self = false /\ track_running_stats self = true)) ->
   snd (SyncBatchNorm_forward needs self input) =
     _SyncBatchNorm_apply (_SyncBatchNorm_forward
              needs input (weight self) (bias self)
              (running_mean self) (running_var self)
              (eps self) (momentum self))).
Proof.
  intros Hc Hd. rewrite forward_checked by assumption. cbv zeta.
  rewrite plain_path_count_batch.
  destruct (count_batch_fields self)
    as (-> & -> & -> & -> & -> & -> & -> & ->).
  split.
  - intros Hp. apply plain_path_true in Hp. rewrite Hp.
    split; [|split].
    + destruct (F_batch_norm _ _ _ _ _ _ _ _) as [out [rm rv]].
      reflexivity.
    + intros ->. apply orb_true_r.
    + intros -> ->. reflexivity.
  - intros Hp. rewrite <- plain_path_true in Hp.
    apply not_true_is_false in Hp. rewrite Hp. reflexivity.
Qed.

(** C4.  A forward call that fails a local validation check (the input is
    not on the GPU, its rank is below 2, or the synchronized path finds
    one value per channel) raises a [ValueError], and no transport call
    has been made when it does. *)
Theorem validation_error_before_collectives needs self input :
  is_cuda input = false \/
  dim input < 2 \/
  (plain_path self = false /\ per_channel_count input = Ok 1) ->
  (exists msg,
     outcome (snd (SyncBatchNorm_forward needs self input)) =
     Raise (ValueError msg)) /\
  trace (snd (SyncBatchNorm_forward needs self input)) = [].
Proof.
  intros H.
  assert (exists msg,
             outcome (snd (SyncBatchNorm_forward needs self input)) =
             Raise (ValueError msg)) as [msg Hm].
  { destruct (is_cuda input) eqn:Hc.
    - destruct (Nat.ltb (dim input) 2) eqn:Hd.
      + unfold SyncBatchNorm_forward, _check_input_dim.
        rewrite Hc, Hd. simpl. eauto.
      + apply Nat.ltb_ge in Hd.
        destruct H as [H | [H | [Hp H1]]]; [discriminate | lia |].
        rewrite forward_checked by assumption. cbv zeta.
        rewrite plain_path_count_batch, Hp.
        rewrite sync_forward_one_sample by assumption.
        simpl. eauto.
    - unfold SyncBatchNorm_forward. rewrite Hc. simpl. eauto. }
  split; [eauto|].
  apply forward_raise_trace with (x := ValueError msg). exact Hm.
Qed.

(** C7.  A run of the synchronized path that gets past its check issues
    exactly three asynchronous all-gathers, for count, mean and invstd
    in this order and under three distinct fixed names, and only then
    waits on the three, in the same order.  The names and their order do
    not depend on the input or on the worker. *)
Theorem three_allgathers_then_wait needs input w b rm rv e mom n :
  per_channel_count input = Ok n -> n <> 1 ->
  trace (_SyncBatchNorm_forward needs input w b rm rv e mom) =
    sync_forward_events input e n /\
  (exists issued waited,
     trace (_SyncBatchNorm_forward needs input w b rm rv e mom) =
       issued ++ waited /\
     forallb is_allgather issued = true /\
     forallb is_synchronize waited = true /\
     map event_name issued =
       ["sync_batch_norm.count"; "sync_batch_norm.mean";
        "sync_batch_norm.invstd"] /\
     map event_name waited = map event_name issued /\
     NoDup (map event_name issued)).
Proof.
  intros Hn Hne.
  rewrite sync_forward_past_check with (n := n) by assumption.
  split; [reflexivity|].
  eexists (firstn 3 (sync_forward_events input e n)),
          (skipn 3 (sync_forward_events input e n)).
  cbn [trace fst sync_forward_events firstn skipn app forallb map
       is_allgather is_synchronize event_name andb].
  repeat split.
  repeat constructor; cbn [In]; intros H;
    repeat (destruct H as [H|H]; [discriminate|]); exact H.
Qed.

(** Past the device and rank checks, the step counter the call leaves
    behind is the one of lines 60-61, on either path. *)
Lemma forward_counter needs self input :
  is_cuda input = true -> 2 <= dim input ->
  num_batches_tracked (fst (SyncBatchNorm_forward needs self input)) =
  num_batches_tracked (count_batch self).
Proof.
  intros Hc Hd. rewrite forward_checked by assumption. cbv zeta.
  destruct (plain_path (count_batch self)).
  - destruct (F_batch_norm _ _ _ _ _ _ _ _) as [out [rm rv]].
    reflexivity.
  - cbn [fst]. destruct (outcome _); reflexivity.
Qed.

(** C9.  A forward call in training mode with tracking enabled whose
    input passes the device and rank checks and has one value per
    channel leaves the module with [num_batches_tracked] incremented (so
    changed); with more than one worker the call raises the
    one-value-per-channel [ValueError] without any transport call, and
    the module it leaves behind is the one with the incremented
    counter. *)
Theorem one_sample_error_after_count needs self input :
  training self = true -> track_running_stats self = true ->
  is_cuda input = true -> 2 <= dim input ->
  per_channel_count input = Ok 1 ->
  num_batches_tracked (fst (SyncBatchNorm_forward needs self input)) =
    wrap_int64 (num_batches_tracked self + 1) /\
  num_batches_tracked (fst (SyncBatchNorm_forward needs self input)) <>
    num_batches_tracked self /\
  (size <> 1 ->
   SyncBatchNorm_forward needs self input =
     (set_num_batches_tracked
        self (wrap_int64 (num_batches_tracked self + 1)),
      ([], Raise (ValueError (expected_more_than_1_value_per_channel 1))))).
Proof.
  intros Ht Hk Hc Hd H1.
  assert (count_batch self =
          set_num_batches_tracked
            self (wrap_int64 (num_batches_tracked self + 1))) as Hb.
  { unfold count_batch. rewrite Ht, Hk. reflexivity. }
  assert (num_batches_tracked (count_batch self) =
          wrap_int64 (num_batches_tracked self + 1)) as Hcount
    by (rewrite Hb; reflexivity).
  rewrite forward_counter by assumption.
  split; [exact Hcount|]. split.
  - rewrite Hcount. apply wrap_int64_succ_neq.
  - intros Hs.
    rewrite forward_checked by assumption. cbv zeta.
    rewrite plain_path_count_batch.
    assert (plain_path self = false) as ->.
    { unfold plain_path. rewrite Ht. simpl. rewrite orb_false_r.
      apply Nat.eqb_neq. exact Hs. }
    rewrite sync_forward_one_sample by assumption.
    simpl. rewrite Hb. reflexivity.
Qed.

(** C10.  A forward call with training mode off, tracking off and more
    than one worker, whose input passes the checks (on the GPU, rank at
    least 2, a per-channel count other than 1), takes the synchronized
    path although the module is in evaluation mode: the three all-gathers
    are issued and waited on, and the output is normalized with the
    statistics that the gather kernel combines from all workers' means,
    inverse deviations and counts. *)
Theorem eval_untracked_synchronizes needs self input n :
  training self = false -> track_running_stats self = false -> 1 < size ->
  is_cuda input = true -> 2 <= dim input ->
  per_channel_count input = Ok n -> n <> 1 ->
  snd (SyncBatchNorm_forward needs self input) =
    _SyncBatchNorm_apply (_SyncBatchNorm_forward
             needs input (weight self) (bias self)
             (running_mean self) (running_var self)
             (eps self) (momentum self)) /\
  trace (snd (SyncBatchNorm_forward needs self input)) =
    sync_forward_events input (eps self) n /\
  exists ctx,
    outcome (snd (SyncBatchNorm_forward needs self input)) =
    Ok (Some ctx,
        batch_norm_elemt
          (contiguous input) (weight self) (bias self)
          (global_mean input (running_mean self) (running_var self)
                       (momentum self) (eps self) n)
          (global_invstd input (running_mean self) (running_var self)
                         (momentum self) (eps self) n)
          (eps self)).
Proof.
  intros Ht Hk Hs Hc Hd Hn Hne.
  rewrite forward_checked by assumption. cbv zeta.
  rewrite plain_path_count_batch.
  destruct (count_batch_fields self)
    as (_ & _ & -> & -> & -> & -> & -> & ->).
  assert (plain_path self = false) as ->.
  { unfold plain_path. rewrite Ht, Hk. simpl. rewrite orb_false_r.
    apply Nat.eqb_neq. lia. }
  cbn [snd]. split; [reflexivity|].
  rewrite sync_forward_past_check with (n := n) by assumption.
  split; [reflexivity|]. simpl. eauto.
Qed.

(** [backward] in closed form: its trace and the tuple it returns. *)
Lemma backward_closed_form self grad_output :
  _SyncBatchNorm_backward self grad_output =
  (if needs_input_grad self arg_input
   then backward_events self grad_output else [],
   Ok [ if needs_input_grad self arg_input
        then Some (synced_grad_input self grad_output) else None;
        if is_None (saved_weight self)
           || negb (needs_input_grad self arg_weight)
        then None
        else reduce_grad_weight (local_reduce self grad_output);
        if is_None (saved_weight self)
           || negb (needs_input_grad self arg_bias)
        then None
        else reduce_grad_bias (local_reduce self grad_output);
        None; None; None; None; None; None ]).
Proof.
  unfold _SyncBatchNorm_backward, backward_events, synced_grad_input,
    local_reduce, saved_weight, reduce_mean_dy, reduce_mean_dy_xmu,
    reduce_grad_weight, reduce_grad_bias.
  destruct self as [needs [[[saved_input w] mean] invstd]].
  cbn [saved_tensors needs_input_grad fst snd].
  destruct (batch_norm_backward_reduce _ _ _ _ _ _ _ _)
    as [[[mean_dy mean_dy_xmu] grad_weight] grad_bias].
  cbn [fst snd].
  destruct (needs arg_input); reflexivity.
Qed.

(** X15.  The slots of the returned tuple that sit at the position of a
    forward input are absent when that input is no tensor or its gradient
    was not requested. *)
Lemma backward_absent_slots self grad_output grads i a :
  outcome (_SyncBatchNorm_backward self grad_output) = Ok grads ->
  nth_error forward_inputs i = Some a ->
  is_tensor_input a = false \/ needs_input_grad self a = false ->
  nth_error grads i = Some None.
Proof.
  rewrite backward_closed_form. cbn [outcome snd]. intros [= <-] Ha Hn.
  do 7 (destruct i as [|i]; [injection Ha as <-; cbn [nth_error];
    destruct Hn as [Hn|Hn]; try discriminate Hn;
    try rewrite Hn; try rewrite orb_true_r; reflexivity|]).
  destruct i; discriminate Ha.
Qed.

(** C3.  Every backward call returns a tuple of nine gradient slots,
    while forward takes seven inputs: the result does not have exactly
    one slot per forward input. *)
Theorem backward_returns_nine_slots self grad_output :
  exists grads,
    outcome (_SyncBatchNorm_backward self grad_output) = Ok grads /\
    length grads = 9 /\
    length forward_inputs = 7 /\
    length grads <> length forward_inputs.
Proof.
  rewrite backward_closed_form. eexists. split; [reflexivity|].
  cbn [length forward_inputs]. repeat split. discriminate.
Qed.

(** C5.  A backward call whose context does not ask for the input
    gradient makes no transport call at all, and the first slot of its
    result (the input gradient) is absent. *)
Theorem backward_without_input_grad self grad_output :
  needs_input_grad self arg_input = false ->
  trace (_SyncBatchNorm_backward self grad_output) = [] /\
  exists rest,
    outcome (_SyncBatchNorm_backward self grad_output) = Ok (None :: rest).
Proof.
  intros Hn. rewrite backward_closed_form, Hn.
  split; [reflexivity|]. eexists. reflexivity.
Qed.

Section BackwardReduceContract.

(** The reduction kernel hands back the parameter gradients it is asked
    for when there is a weight. *)
Hypothesis reduce_returns_grad_weight :
  forall go x m iv w ig bg,
    reduce_grad_weight
      (batch_norm_backward_reduce go x m iv (Some w) ig true bg) <> None.
Hypothesis reduce_returns_grad_bias :
  forall go x m iv w ig wg,
    reduce_grad_bias
      (batch_norm_backward_reduce go x m iv (Some w) ig wg true) <> None.

(** C6.  In the result of a backward call, grad_weight (resp.
    grad_bias) is present exactly when that gradient is requested and
    the forward call had a weight; when present it is the value of the
    local reduction kernel, and the only transport calls of the call
    are the all-reduces of mean_dy and mean_dy_xmu and the waits on
    them: nothing is applied to grad_weight or grad_bias. *)
Theorem grad_weight_bias_stay_local self grad_output :
  exists grad_input grad_weight grad_bias,
    outcome (_SyncBatchNorm_backward self grad_output) =
      Ok [grad_input; grad_weight; grad_bias;
          None; None; None; None; None; None] /\
    (grad_weight <> None <->
     needs_input_grad self arg_weight = true /\
     saved_weight self <> None) /\
    (grad_bias <> None <->
     needs_input_grad self arg_bias = true /\
     saved_weight self <> None) /\
    (grad_weight <> None ->
     grad_weight = reduce_grad_weight (local_reduce self grad_output)) /\
    (grad_bias <> None ->
     grad_bias = reduce_grad_bias (local_reduce self grad_output)) /\
    (forall e, In e (trace (_SyncBatchNorm_backward self grad_output)) ->
               In e (backward_events self grad_output)).
Proof.
  rewrite backward_closed_form. do 3 eexists.
  split; [reflexivity|].
  cbn [trace fst].
  assert (forall w,
             saved_weight self = Some w ->
             reduce_grad_weight (local_reduce self grad_output) <> None
             \/ needs_input_grad self arg_weight = false) as Hw.
  { intros w Hs. unfold local_reduce, saved_weight in *.
    destruct self as [needs [[[saved_input w'] mean] invstd]].
    cbn [saved_tensors needs_input_grad fst snd] in *. subst w'.
    destruct (needs arg_weight); [left|right; reflexivity].
    apply reduce_returns_grad_weight. }
  assert (forall w,
             saved_weight self = Some w ->
             reduce_grad_bias (local_reduce self grad_output) <> None
             \/ needs_input_grad self arg_bias = false) as Hb.
  { intros w Hs. unfold local_reduce, saved_weight in *.
    destruct self as [needs [[[saved_input w'] mean] invstd]].
    cbn [saved_tensors needs_input_grad fst snd] in *. subst w'.
    destruct (needs arg_bias); [left|right; reflexivity].
    apply reduce_returns_grad_bias. }
  assert (forall e,
             In e (if needs_input_grad self arg_input
                   then backward_events self grad_output else []) ->
             In e (backward_events self grad_output)) as He.
  { intros e. destruct (needs_input_grad self arg_input);
      [trivial | intros []]. }
  destruct (saved_weight self) as [w|] eqn:Hs; cbn [is_None orb].
  - specialize (Hw w eq_refl). specialize (Hb w eq_refl).
    destruct (needs_input_grad self arg_weight),
             (needs_input_grad self arg_bias); cbn [negb];
      repeat match goal with
             | |- _ /\ _ => split
             | |- _ <-> _ => split
             end;
      try exact He; try reflexivity; try discriminate;
      try (intros _; split; [reflexivity|discriminate]);
      try (intros _; destruct Hw as [Hw|Hw];
           [exact Hw|discriminate Hw]);
      try (intros _; destruct Hb as [Hb|Hb];
           [exact Hb|discriminate Hb]);
      try (intros H; exfalso; apply H; reflexivity);
      try (intros [H _]; discriminate H).
  - repeat match goal with
           | |- _ /\ _ => split
           | |- _ <-> _ => split
           end;
      try exact He; try reflexivity;
      try (intros H; exfalso; apply H; reflexivity);
      try (intros [_ H]; exfalso; apply H; reflexivity).
Qed.

End BackwardReduceContract.

(** *** All runs of forward *)

Lemma forward_runs needs self input :
  forward_run needs self input (SyncBatchNorm_forward needs self input).
Proof.
  destruct (is_cuda input) eqn:Hc.
  - destruct (Nat.ltb (dim input) 2) eqn:Hd.
    + unfold SyncBatchNorm_forward, _check_input_dim.
      rewrite Hc, Hd. cbn [negb raise].
      apply run_rank_below_2; [assumption|].
      apply Nat.ltb_lt. exact Hd.
    + apply Nat.ltb_ge in Hd.
      rewrite forward_checked by assumption. cbv zeta.
      rewrite plain_path_count_batch.
      destruct (count_batch_fields self)
        as (-> & -> & -> & -> & -> & -> & -> & ->).
      destruct (plain_path self) eqn:Hp.
      * destruct (F_batch_norm _ _ _ _ _ _ _ _) as [out [rm rv]] eqn:E.
        apply run_plain; assumption.
      * destruct (per_channel_count input) as [n|x] eqn:Hn.
        -- destruct (Nat.eq_dec n 1) as [->|Hne].
           ++ rewrite sync_forward_one_sample by assumption.
              apply run_one_sample; assumption.
           ++ rewrite sync_forward_past_check with (n := n) by assumption.
              apply run_synchronized; assumption.
        -- rewrite sync_forward_no_count with (x := x) by assumption.
           apply run_no_count; assumption.
  - unfold SyncBatchNorm_forward. rewrite Hc. cbn [negb raise].
    apply run_not_on_gpu. exact Hc.
Qed.

Lemma per_channel_count_raise input x :
  2 <= dim input -> per_channel_count input = Raise x ->
  x = ZeroDivisionError /\ nth_error (shape input) 1 = Some 0.
Proof.
  unfold per_channel_count, tsize, dim. intros Hd.
  destruct (shape input) as [|a [|c rest]]; cbn [length] in Hd; try lia.
  cbn [nth_error]. destruct c; cbn [floordiv]; [|discriminate].
  intros [= <-]. split; reflexivity.
Qed.

Lemma prod_eq_1 l : prod l = 1 <-> Forall (fun d => d = 1) l.
Proof.
  induction l as [|d l IH]; cbn [prod fold_right].
  - split; [constructor | reflexivity].
  - fold (prod l). rewrite Nat.eq_mul_1, IH. split.
    + intros [? ?]. constructor; assumption.
    + intros H. inversion H. split; assumption.
Qed.

Lemma set_running_stats_fields self rm rv :
  training (set_running_stats self rm rv) = training self /\
  track_running_stats (set_running_stats self rm rv) =
    track_running_stats self /\
  num_batches_tracked (set_running_stats self rm rv) =
    num_batches_tracked self /\
  weight (set_running_stats self rm rv) = weight self /\
  bias (set_running_stats self rm rv) = bias self /\
  momentum (set_running_stats self rm rv) = momentum self /\
  eps (set_running_stats self rm rv) = eps self.
Proof. repeat split. Qed.

(** X1.  A call rejected by the device check or by the rank check leaves
    the module exactly as it was and makes no transport call; an input
    that is not on the GPU gets the device error whatever its rank. *)
Theorem rejected_input_leaves_module needs self input :
  is_cuda input = false \/ dim input < 2 ->
  fst (SyncBatchNorm_forward needs self input) = self /\
  trace (snd (SyncBatchNorm_forward needs self input)) = [] /\
  (is_cuda input = false ->
   outcome (snd (SyncBatchNorm_forward needs self input)) =
   Raise (ValueError expected_input_on_GPU)) /\
  (is_cuda input = true ->
   outcome (snd (SyncBatchNorm_forward needs self input)) =
   Raise (ValueError (expected_at_least_2D (dim input)))).
Proof.
  intros H.
  destruct (forward_runs needs self input);
    try (exfalso; destruct H as [H|H]; [congruence | lia]);
    cbn [fst snd trace outcome];
    repeat split; try reflexivity; congruence.
Qed.

(** X2.  Whatever forward raises out of this file's own code is one of
    four errors: the device error, the rank error with the rank found, a
    ZeroDivisionError for an input with zero channels, or the
    one-value-per-channel error, whose message always reports size 1.
    In particular the rank check keeps [input.size(1)] from ever raising
    IndexError. *)
Theorem forward_errors needs self input x :
  outcome (snd (SyncBatchNorm_forward needs self input)) = Raise x ->
  (x = ValueError expected_input_on_GPU /\ is_cuda input = false) \/
  (x = ValueError (expected_at_least_2D (dim input)) /\
   is_cuda input = true /\ dim input < 2) \/
  (x = ZeroDivisionError /\ plain_path self = false /\
   nth_error (shape input) 1 = Some 0) \/
  (x = ValueError (expected_more_than_1_value_per_channel 1) /\
   plain_path self = false /\ per_channel_count input = Ok 1).
Proof.
  destruct (forward_runs needs self input) as [Hc|Hc Hd| | |Hc Hd Hp H1|];
    cbn [snd outcome]; intros E; try discriminate E;
    injection E as <-.
  - left. split; [reflexivity|assumption].
  - right. left. repeat split; assumption.
  - right. right. left.
    match goal with
    | Hd : 2 <= dim input, Hx : per_channel_count input = Raise _ |- _ =>
        destruct (per_channel_count_raise input _ Hd Hx) as [-> Hz]
    end.
    repeat split; assumption.
  - right. right. right. repeat split; assumption.
Qed.

Lemma count_of_shape input N C rest :
  shape input = N :: C :: rest -> C <> 0 ->
  per_channel_count input = Ok (N * prod rest).
Proof.
  intros Hs HC. unfold per_channel_count, tsize, numel. rewrite Hs.
  cbn [nth_error fold_right]. fold (prod rest).
  destruct C as [|C]; [congruence|]. cbn [floordiv]. f_equal.
  replace (N * (S C * prod rest)) with (N * prod rest * S C) by lia.
  apply Nat.div_mul. discriminate.
Qed.

(** X3.  For an input of shape (N, C, d1, ..., dk) with C > 0 the
    per-channel count [numel // size(1)] is N * d1 * ... * dk. *)
Theorem per_channel_count_shape input N C rest :
  shape input = N :: C :: rest -> C <> 0 ->
  per_channel_count input = Ok (N * prod rest).
Proof. exact (count_of_shape input N C rest). Qed.

(** X4.  On the synchronized path, an input of shape (N, C, d1, ..., dk)
    with C > 0 gets the one-value-per-channel error exactly when N = 1
    and every further dimension d1, ..., dk is 1. *)
Theorem one_sample_error_iff needs input w b rm rv e mom N C rest :
  shape input = N :: C :: rest -> C <> 0 ->
  (outcome (_SyncBatchNorm_forward needs input w b rm rv e mom) =
   Raise (ValueError (expected_more_than_1_value_per_channel 1)) <->
   N = 1 /\ Forall (fun d => d = 1) rest).
Proof.
  intros Hs HC.
  pose proof (count_of_shape input N C rest Hs HC) as Hn.
  rewrite <- prod_eq_1, <- Nat.eq_mul_1.
  destruct (Nat.eq_dec (N * prod rest) 1) as [E|E].
  - rewrite E in Hn. rewrite sync_forward_one_sample by assumption.
    split; [intros _; exact E | reflexivity].
  - rewrite sync_forward_past_check with (n := N * prod rest)
      by assumption.
    split; [discriminate | intros; contradiction].
Qed.

(** X5.  Forward never touches the mode flags or the parameters of the
    module: training, track_running_stats, weight, bias, momentum and eps
    are the same after every call, whatever its outcome. *)
Theorem forward_keeps_configuration needs self input :
  let self' := fst (SyncBatchNorm_forward needs self input) in
  training self' = training self /\
  track_running_stats self' = track_running_stats self /\
  weight self' = weight self /\
  bias self' = bias self /\
  momentum self' = momentum self /\
  eps self' = eps self.
Proof.
  cbv zeta.
  destruct (count_batch_fields self) as (Ht & Hk & _ & _ & Hw & Hb & Hm & He).
  destruct (forward_runs needs self input); cbn [fst];
    cbn [set_running_stats training track_running_stats weight bias
         momentum eps];
    repeat split; assumption || reflexivity.
Qed.

(** X6.  Outside training mode, or with tracking off, forward leaves
    [num_batches_tracked] as it was, whatever the input and the outcome. *)
Theorem counter_only_counts_tracked_training needs self input :
  training self && track_running_stats self = false ->
  num_batches_tracked (fst (SyncBatchNorm_forward needs self input)) =
  num_batches_tracked self.
Proof.
  intros H.
  assert (count_batch self = self) as Hb
    by (unfold count_batch; rewrite H; reflexivity).
  destruct (forward_runs needs self input); cbn [fst];
    cbn [set_running_stats num_batches_tracked];
    rewrite ?Hb; reflexivity.
Qed.

(** X7.  A call that raises leaves the running statistics of the module
    as they were: no error path reaches a kernel that updates them. *)
Theorem error_keeps_running_stats needs self input x :
  outcome (snd (SyncBatchNorm_forward needs self input)) = Raise x ->
  running_mean (fst (SyncBatchNorm_forward needs self input)) =
    running_mean self /\
  running_var (fst (SyncBatchNorm_forward needs self input)) =
    running_var self.
Proof.
  destruct (count_batch_fields self) as (_ & _ & Hm & Hv & _).
  destruct (forward_runs needs self input); cbn [fst snd outcome];
    intros E; try discriminate E; split; assumption || reflexivity.
Qed.

(** X14.  In training mode with tracking on, a call that gets past the
    device and rank checks adds exactly one to [num_batches_tracked] as
    long as the counter is below the largest int64. *)
Theorem counter_adds_one needs self input :
  training self = true -> track_running_stats self = true ->
  is_cuda input = true -> 2 <= dim input ->
  (- 2 ^ 63 <= num_batches_tracked self < 2 ^ 63 - 1)%Z ->
  num_batches_tracked (fst (SyncBatchNorm_forward needs self input)) =
  (num_batches_tracked self + 1)%Z.
Proof.
  intros Ht Hk Hc Hd Hr. rewrite forward_counter by assumption.
  unfold count_batch. rewrite Ht, Hk. cbn [andb].
  cbn [set_num_batches_tracked num_batches_tracked].
  unfold wrap_int64.
  rewrite Z.mod_small by lia. lia.
Qed.

(** *** Transport traces *)




(** X8.  A backward call that is asked for the input gradient issues the
    all-reduce of mean_dy and then the all-reduce of mean_dy_xmu, under two
    distinct fixed names, waits on them in this order, and returns in
    slot 0 the input gradient computed from the two reduced tensors. *)
Theorem backward_with_input_grad self grad_output :
  needs_input_grad self arg_input = true ->
  trace (_SyncBatchNorm_backward self grad_output) =
    backward_events self grad_output /\
  map event_name (trace (_SyncBatchNorm_backward self grad_output)) =
    ["sync_batch_norm.mean_dy"; "sync_batch_norm.mean_dy_xmu";
     "sync_batch_norm.mean_dy"; "sync_batch_norm.mean_dy_xmu"] /\
  map is_allreduce (trace (_SyncBatchNorm_backward self grad_output)) =
    [true; true; false; false] /\
  exists rest,
    outcome (_SyncBatchNorm_backward self grad_output) =
    Ok (Some (synced_grad_input self grad_output) :: rest).
Proof.
  intros Hn. rewrite backward_closed_form, Hn.
  cbn [trace fst outcome snd].
  split; [reflexivity|]. split; [reflexivity|]. split; [reflexivity|].
  eexists. reflexivity.
Qed.


(** X10.  A forward call issues either no collective operation or exactly
    three all-gathers, and never an all-reduce; a backward call issues
    either none or exactly two all-reduces, and never an all-gather. *)
Theorem collective_counts needs self input ctx grad_output :
  (let t := trace (snd (SyncBatchNorm_forward needs self input)) in
   (length (filter is_collective_issue t) = 0 \/
    length (filter is_allgather t) = 3) /\
   filter is_allreduce t = []) /\
  (let t := trace (_SyncBatchNorm_backward ctx grad_output) in
   (length (filter is_collective_issue t) = 0 \/
    length (filter is_allreduce t) = 2) /\
   filter is_allgather t = []).
Proof.
  split; cbv zeta.
  - destruct (forward_runs needs self input); cbn [snd trace fst];
      (split; [(left; reflexivity) || (right; reflexivity) | reflexivity]).
  - rewrite backward_closed_form. cbn [trace fst].
    destruct (needs_input_grad ctx arg_input);
      (split; [(left; reflexivity) || (right; reflexivity) | reflexivity]).
Qed.

(** X11.  When forward succeeds on the synchronized path, the context it
    keeps for backward holds the input, the module's weight and exactly
    the global mean and inverse deviation with which the returned output
    was normalized, together with the gradient flags of the call. *)
Theorem saved_for_backward_matches_output needs self input ctx out :
  outcome (snd (SyncBatchNorm_forward needs self input)) =
    Ok (Some ctx, out) ->
  needs_input_grad ctx = needs /\
  exists mean invstd,
    saved_tensors ctx = (contiguous input, weight self, mean, invstd) /\
    out = batch_norm_elemt (contiguous input) (weight self) (bias self)
                           mean invstd (eps self).
Proof.
  destruct (forward_runs needs self input); cbn [snd outcome];
    intros E; try discriminate E.
  injection E as <- <-. cbn [needs_input_grad saved_tensors].
  split; [reflexivity|]. eexists _, _. split; reflexivity.
Qed.

(** X12.  Forward followed by backward on a module without weight: the
    backward call on the context that forward kept returns no grad_weight
    and no grad_bias, whatever gradients were requested. *)
Theorem no_weight_no_parameter_gradients needs self input ctx out
    grad_output :
  weight self = None ->
  outcome (snd (SyncBatchNorm_forward needs self input)) =
    Ok (Some ctx, out) ->
  exists grad_input,
    outcome (_SyncBatchNorm_backward ctx grad_output) =
    Ok [grad_input; None; None; None; None; None; None; None; None].
Proof.
  intros Hw.
  destruct (forward_runs needs self input); cbn [snd outcome];
    intros E; try discriminate E.
  injection E as <- <-. rewrite backward_closed_form.
  unfold saved_weight. cbn [saved_tensors fst snd outcome].
  rewrite Hw. cbn [is_None orb]. eexists. reflexivity.
Qed.

(** X13.  On the synchronized path an input with zero channels, of shape
    (N, 0, ...), raises ZeroDivisionError before any transport call; the
    module keeps the step counter already bumped by lines 60-61. *)
Theorem zero_channels_divide_by_zero needs self input N rest :
  is_cuda input = true -> shape input = N :: 0 :: rest ->
  plain_path self = false ->
  SyncBatchNorm_forward needs self input =
  (count_batch self, ([], Raise ZeroDivisionError)).
Proof.
  intros Hc Hs Hp.
  assert (2 <= dim input) as Hd by (unfold dim; rewrite Hs; cbn; lia).
  assert (per_channel_count input = Raise ZeroDivisionError) as Hn.
  { unfold per_channel_count, tsize. rewrite Hs. reflexivity. }
  rewrite forward_checked by assumption. cbv zeta.
  rewrite plain_path_count_batch, Hp.
  rewrite sync_forward_no_count with (x := ZeroDivisionError)
    by assumption.
  reflexivity.
Qed.

(** X16.  Called on an input of rank below 2, without the module's rank
    check in front, [_SyncBatchNorm.forward] raises IndexError at
    [input.size(1)], before any transport call. *)
Theorem sync_forward_rank_below_2 needs input w b rm rv e mom :
  dim input < 2 ->
  _SyncBatchNorm_forward needs input w b rm rv e mom =
  ([], Raise IndexError).
Proof.
  intros Hd. apply sync_forward_no_count.
  unfold per_channel_count, tsize, dim in *.
  destruct (shape input) as [|a [|c rest]]; cbn [length] in Hd;
    [reflexivity | reflexivity | lia].
Qed.

Lemma per_channel_count_same_shape input1 input2 :
  shape input1 = shape input2 ->
  per_channel_count input1 = per_channel_count input2.
Proof.
  intros H. unfold per_channel_count, tsize, numel. rewrite H. reflexivity.
Qed.

Lemma forward_names needs self input :
  map event_name (trace (snd (SyncBatchNorm_forward needs self input))) =
  if is_cuda input && Nat.leb 2 (dim input) && negb (plain_path self) then
    match per_channel_count input with
    | Ok n =>
      if Nat.eqb n 1 then []
      else ["sync_batch_norm.count"; "sync_batch_norm.mean";
            "sync_batch_norm.invstd"; "sync_batch_norm.count";
            "sync_batch_norm.mean"; "sync_batch_norm.invstd"]
    | Raise _ => []
    end
  else [].
Proof.
  destruct (forward_runs needs self input)
    as [Hc|Hc Hd|? ? ? Hc Hd Hp|? Hc Hd Hp Hn|Hc Hd Hp Hn|n Hc Hd Hp Hn Hne];
    cbn [snd trace fst map]; rewrite Hc; cbn [andb];
    try reflexivity;
    try (apply Nat.leb_le in Hd; rewrite Hd, Hp; cbn [andb negb]).
  - apply Nat.leb_gt in Hd. rewrite Hd. reflexivity.
  - reflexivity.
  - rewrite Hn. reflexivity.
  - rewrite Hn. reflexivity.
  - rewrite Hn. apply Nat.eqb_neq in Hne. rewrite Hne. reflexivity.
Qed.

(** X17.  The names of the transport calls of a forward call, in order,
    depend only on the worker count, the two mode flags of the module and
    the device and shape of the input: two calls that agree on these make
    the same calls by name, whatever the tensor values, parameters and
    gradient flags.  Likewise two backward calls that agree on
    [needs_input_grad[0]]. *)
Theorem symmetric_calls_same_names
    needs1 needs2 self1 self2 input1 input2 ctx1 ctx2 go1 go2 :
  training self1 = training self2 ->
  track_running_stats self1 = track_running_stats self2 ->
  is_cuda input1 = is_cuda input2 ->
  shape input1 = shape input2 ->
  needs_input_grad ctx1 arg_input = needs_input_grad ctx2 arg_input ->
  map event_name
      (trace (snd (SyncBatchNorm_forward needs1 self1 input1))) =
  map event_name
      (trace (snd (SyncBatchNorm_forward needs2 self2 input2))) /\
  map event_name (trace (_SyncBatchNorm_backward ctx1 go1)) =
  map event_name (trace (_SyncBatchNorm_backward ctx2 go2)).
Proof.
  intros Ht Hk Hc Hs Hg. split.
  - rewrite !forward_names.
    rewrite (per_channel_count_same_shape input1 input2 Hs).
    unfold plain_path, dim. rewrite Ht, Hk, Hc, Hs. reflexivity.
  - rewrite !backward_closed_form. cbn [trace fst]. rewrite Hg.
    destruct (needs_input_grad ctx2 arg_input); reflexivity.
Qed.

End SyncBatchNorm.

(** ** Sample runs

    The theorems above at the collaborators of [Sample]: two workers, a
    module with neither weight nor running statistics. *)

Abbreviation sample_forward :=
  (SyncBatchNorm_forward
     Sample.tensor Q Sample.on_gpu Sample.dims Sample.unsqueeze0
     Sample.batch_norm_stats Sample.batch_norm_gather_stats_with_counts
     Sample.batch_norm_elemt Sample.F_batch_norm Sample.size
     Sample.allgather_counts Sample.allgather).

Abbreviation sample_sync_forward :=
  (_SyncBatchNorm_forward
     Sample.tensor Q Sample.dims Sample.unsqueeze0
     Sample.batch_norm_stats Sample.batch_norm_gather_stats_with_counts
     Sample.batch_norm_elemt Sample.allgather_counts Sample.allgather).

Abbreviation sample_backward :=
  (_SyncBatchNorm_backward
     Sample.tensor Sample.batch_norm_backward_reduce
     Sample.batch_norm_backward_elemt Sample.allreduce).

Abbreviation sample_module training track :=
  (mk_module Sample.tensor Q training track 7%Z None None None None
             (Some (1 # 10)%Q) (1 # 100000)%Q).

Abbreviation sample_ctx needs weight :=
  (mk_ctx Sample.tensor needs
          (Sample.gpu_tensor [4; 3], weight,
           Sample.mk_tensor true [3] "global_mean",
           Sample.mk_tensor true [3] "global_invstd")).

(** C2.  A training call on two workers with an input of shape (0, 3): the
    per-channel count is 0, no error is raised, and the three all-gathers
    are issued. *)
Theorem zero_samples_pass_the_check :
  per_channel_count Sample.tensor Sample.dims (Sample.gpu_tensor [0; 3]) =
    Ok 0 /\
  (exists r,
     outcome _ (snd (sample_forward Sample.needs_all (sample_module true true)
                                    (Sample.gpu_tensor [0; 3]))) = Ok r) /\
  map (event_name _)
      (filter (is_collective_issue _)
              (trace _ (snd (sample_forward
                               Sample.needs_all (sample_module true true)
                               (Sample.gpu_tensor [0; 3]))))) =
    ["sync_batch_norm.count"; "sync_batch_norm.mean";
     "sync_batch_norm.invstd"].
Proof.
  split; [reflexivity|]. split; [eexists|]; reflexivity.
Qed.

Lemma forward_dispatch_witness :
  snd (sample_forward Sample.needs_all (sample_module false true)
                      (Sample.gpu_tensor [4; 3])) =
    ([], Ok (None, Sample.mk_tensor true [4; 3] "batch_norm")) /\
  snd (sample_forward Sample.needs_all (sample_module true true)
                      (Sample.gpu_tensor [4; 3])) =
    _SyncBatchNorm_apply
      _ (sample_sync_forward Sample.needs_all (Sample.gpu_tensor [4; 3])
                             None None None None
                             (1 # 100000)%Q (Some (1 # 10)%Q)).
Proof.
  split.
  - apply (forward_dispatch
             Sample.tensor Q Sample.on_gpu Sample.dims Sample.unsqueeze0
             Sample.batch_norm_stats
             Sample.batch_norm_gather_stats_with_counts
             Sample.batch_norm_elemt Sample.F_batch_norm Sample.size
             Sample.allgather_counts Sample.allgather
             Sample.needs_all (sample_module false true)
             (Sample.gpu_tensor [4; 3]) eq_refl (le_n 2)).
    right. split; reflexivity.
  - apply (forward_dispatch
             Sample.tensor Q Sample.on_gpu Sample.dims Sample.unsqueeze0
             Sample.batch_norm_stats
             Sample.batch_norm_gather_stats_with_counts
             Sample.batch_norm_elemt Sample.F_batch_norm Sample.size
             Sample.allgather_counts Sample.allgather
             Sample.needs_all (sample_module true true)
             (Sample.gpu_tensor [4; 3]) eq_refl (le_n 2)).
    intros [H | [H _]]; discriminate H.
Defined.

Lemma validation_error_before_collectives_witness :
  trace _ (snd (sample_forward Sample.needs_all (sample_module true true)
                               (Sample.cpu_tensor [4; 3]))) = [] /\
  trace _ (snd (sample_forward Sample.needs_all (sample_module true true)
                               (Sample.gpu_tensor [3]))) = [] /\
  trace _ (snd (sample_forward Sample.needs_all (sample_module true true)
                               (Sample.gpu_tensor [1; 3]))) = [].
Proof.
  split; [|split];
    apply (validation_error_before_collectives
             Sample.tensor Q Sample.on_gpu Sample.dims Sample.unsqueeze0
             Sample.batch_norm_stats
             Sample.batch_norm_gather_stats_with_counts
             Sample.batch_norm_elemt Sample.F_batch_norm Sample.size
             Sample.allgather_counts Sample.allgather).
  - left. reflexivity.
  - right. left. exact (le_n 2).
  - right. right. split; reflexivity.
Defined.

Lemma three_allgathers_then_wait_witness :
  trace _ (sample_sync_forward Sample.needs_all (Sample.gpu_tensor [4; 3])
                               None None None None
                               (1 # 100000)%Q (Some (1 # 10)%Q)) =
  [ ev_allgather_async _ "sync_batch_norm.count" (int_tensor _ [[4]]);
    ev_allgather_async _ "sync_batch_norm.mean"
      (float_tensor _ (Sample.mk_tensor true [1; 3] "mean"));
    ev_allgather_async _ "sync_batch_norm.invstd"
      (float_tensor _ (Sample.mk_tensor true [1; 3] "invstd"));
    ev_synchronize _ "sync_batch_norm.count";
    ev_synchronize _ "sync_batch_norm.mean";
    ev_synchronize _ "sync_batch_norm.invstd" ].
Proof.
  apply (three_allgathers_then_wait
           Sample.tensor Q Sample.dims Sample.unsqueeze0
           Sample.batch_norm_stats
           Sample.batch_norm_gather_stats_with_counts
           Sample.batch_norm_elemt Sample.allgather_counts Sample.allgather
           Sample.needs_all (Sample.gpu_tensor [4; 3])
           None None None None (1 # 100000)%Q (Some (1 # 10)%Q) 4).
  - reflexivity.
  - discriminate.
Defined.

Lemma one_sample_error_after_count_witness :
  sample_forward Sample.needs_all (sample_module true true)
                 (Sample.gpu_tensor [1; 3]) =
  (set_num_batches_tracked _ _ (sample_module true true) 8%Z,
   ([], Raise (ValueError (expected_more_than_1_value_per_channel 1)))).
Proof.
  apply (one_sample_error_after_count
           Sample.tensor Q Sample.on_gpu Sample.dims Sample.unsqueeze0
           Sample.batch_norm_stats
           Sample.batch_norm_gather_stats_with_counts
           Sample.batch_norm_elemt Sample.F_batch_norm Sample.size
           Sample.allgather_counts Sample.allgather
           Sample.needs_all (sample_module true true)
           (Sample.gpu_tensor [1; 3])
           eq_refl eq_refl eq_refl (le_n 2) eq_refl).
  discriminate.
Defined.

Lemma eval_untracked_synchronizes_witness :
  trace _ (snd (sample_forward Sample.needs_all (sample_module false false)
                               (Sample.gpu_tensor [4; 3]))) =
  [ ev_allgather_async _ "sync_batch_norm.count" (int_tensor _ [[4]]);
    ev_allgather_async _ "sync_batch_norm.mean"
      (float_tensor _ (Sample.mk_tensor true [1; 3] "mean"));
    ev_allgather_async _ "sync_batch_norm.invstd"
      (float_tensor _ (Sample.mk_tensor true [1; 3] "invstd"));
    ev_synchronize _ "sync_batch_norm.count";
    ev_synchronize _ "sync_batch_norm.mean";
    ev_synchronize _ "sync_batch_norm.invstd" ].
Proof.
  apply (eval_untracked_synchronizes
           Sample.tensor Q Sample.on_gpu Sample.dims Sample.unsqueeze0
           Sample.batch_norm_stats
           Sample.batch_norm_gather_stats_with_counts
           Sample.batch_norm_elemt Sample.F_batch_norm Sample.size
           Sample.allgather_counts Sample.allgather
           Sample.needs_all (sample_module false false)
           (Sample.gpu_tensor [4; 3]) 4
           eq_refl eq_refl (le_n 2) eq_refl (le_n 2) eq_refl).
  discriminate.
Defined.

Lemma backward_without_input_grad_witness :
  trace _ (sample_backward (sample_ctx Sample.needs_none None)
                           (Sample.gpu_tensor [4; 3])) = [] /\
  exists rest,
    outcome _ (sample_backward (sample_ctx Sample.needs_none None)
                               (Sample.gpu_tensor [4; 3])) =
    Ok (None :: rest).
Proof.
  apply (backward_without_input_grad
           Sample.tensor Sample.batch_norm_backward_reduce
           Sample.batch_norm_backward_elemt Sample.allreduce
           (sample_ctx Sample.needs_none None) (Sample.gpu_tensor [4; 3])).
  reflexivity.
Defined.

Lemma grad_weight_bias_stay_local_witness :
  exists grad_input grad_weight grad_bias,
    outcome _ (sample_backward
                 (sample_ctx Sample.needs_all
                             (Some (Sample.mk_tensor true [3] "weight")))
                 (Sample.gpu_tensor [4; 3])) =
      Ok [grad_input; grad_weight; grad_bias;
          None; None; None; None; None; None] /\
    grad_weight <> None /\ grad_bias <> None.
Proof.
  destruct (grad_weight_bias_stay_local
              Sample.tensor Sample.batch_norm_backward_reduce
              Sample.batch_norm_backward_elemt Sample.allreduce
              (fun go x m iv w ig bg H =>
                 eq_ind (Some (Sample.mk_tensor (Sample.on_gpu x)
                                                [Sample.channels x]
                                                "grad_weight"))
                        (fun o => match o with
                                  | Some _ => True | None => False end)
                        I None H)
              (fun go x m iv w ig wg H =>
                 eq_ind (Some (Sample.mk_tensor (Sample.on_gpu x)
                                                [Sample.channels x]
                                                "grad_bias"))
                        (fun o => match o with
                                  | Some _ => True | None => False end)
                        I None H)
              (sample_ctx Sample.needs_all
                          (Some (Sample.mk_tensor true [3] "weight")))
              (Sample.gpu_tensor [4; 3]))
    as (gi & gw & gb & E & Hw & Hb & _).
  exists gi, gw, gb. split; [exact E|]. split.
  - apply Hw. split; [reflexivity|discriminate].
  - apply Hb. split; [reflexivity|discriminate].
Defined.

(** ** The merge of per-worker statistics *)

Section GatherStatsProperties.
Import GatherStats.
Local Open Scope Q_scope.

Lemma sumQ_app a b : sumQ (a ++ b) == sumQ a + sumQ b.
Proof.
  induction a as [|x a IH]; simpl.
  - ring.
  - rewrite IH. ring.
Qed.

Lemma sumsq_app a b : sumsq (a ++ b) == sumsq a + sumsq b.
Proof. unfold sumsq. rewrite map_app. apply sumQ_app. Qed.

Lemma cardinal_cons x l : cardinal (x :: l) == 1 + cardinal l.
Proof.
  unfold cardinal. cbn [length]. rewrite Nat2Z.inj_succ, <- Z.add_1_l.
  rewrite inject_Z_plus. reflexivity.
Qed.

Lemma cardinal_app a b : cardinal (a ++ b) == cardinal a + cardinal b.
Proof.
  induction a as [|x a IH].
  - simpl. unfold cardinal at 2. simpl. ring.
  - simpl app. rewrite !cardinal_cons, IH. ring.
Qed.

Lemma cardinal_nonneg l : 0 <= cardinal l.
Proof.
  unfold cardinal. rewrite <- (Zle_Qle 0). lia.
Qed.

Lemma cardinal_pos l : (1 <= length l)%nat -> 0 < cardinal l.
Proof.
  intros H. unfold cardinal. rewrite <- (Zlt_Qlt 0). lia.
Qed.

Lemma sq_dev_sum m l :
  sumQ (map (fun x => (x - m) * (x - m)) l) ==
  sumsq l - 2 * m * sumQ l + cardinal l * m * m.
Proof.
  induction l as [|x l IH].
  - unfold sumsq, cardinal. simpl. ring.
  - rewrite cardinal_cons. unfold sumsq in *. simpl. rewrite IH. ring.
Qed.

Lemma chan_merge_step acc l s :
  merged acc l -> (1 <= length s)%nat ->
  merged (chan_merge acc (batch_norm_stats s)) (l ++ s).
Proof.
  destruct acc as [[total avg] m2]. intros (Ht & Ha & Hm) Hs.
  pose proof (cardinal_pos s Hs) as Hn.
  pose proof (cardinal_nonneg l) as Hl.
  unfold merged, chan_merge, batch_norm_stats.
  cbn [count l_mean l_var].
  fold (cardinal s).
  rewrite sumQ_app, sumsq_app, cardinal_app.
  unfold variance. rewrite sq_dev_sum. unfold mean.
  rewrite Hm, <- Ha, Ht.
  set (n := cardinal s) in *. set (c := cardinal l) in *.
  set (B := sumQ s). set (S2 := sumsq s). set (L2 := sumsq l).
  assert (~ n == 0) by lra.
  assert (~ n + c == 0) by lra.
  split; [ring|]. split; field; auto.
Qed.

Lemma gather_merged shards : forall acc l,
  merged acc l -> Forall (fun s => (1 <= length s)%nat) shards ->
  merged (fold_left chan_merge (map batch_norm_stats shards) acc)
         (l ++ concat shards).
Proof.
  induction shards as [|s shards IH]; intros acc l Hm Hall.
  - simpl. rewrite app_nil_r. exact Hm.
  - inversion Hall as [|? ? Hs Hrest]; subst.
    cbn [map fold_left concat]. rewrite app_assoc.
    apply IH; [|exact Hrest]. apply chan_merge_step; assumption.
Qed.

Lemma merged_start : merged (0, 0, 0) [].
Proof. unfold merged, cardinal, sumsq. simpl. repeat split; ring. Qed.

Lemma total_count_stats shards :
  total_count (map batch_norm_stats shards) == cardinal (concat shards).
Proof.
  unfold total_count. induction shards as [|s shards IH].
  - reflexivity.
  - cbn [map concat sumQ fold_right] in *. rewrite cardinal_app, IH.
    reflexivity.
Qed.

Lemma weighted_sum_stats shards :
  Forall (fun s => (1 <= length s)%nat) shards ->
  sumQ (map (fun w => inject_Z (Z.of_nat (count w)) * l_mean w)
            (map batch_norm_stats shards)) ==
  sumQ (concat shards).
Proof.
  induction 1 as [|s shards Hs _ IH].
  - reflexivity.
  - cbn [map concat sumQ fold_right count l_mean batch_norm_stats] in *.
    rewrite sumQ_app, IH. fold (cardinal s). unfold mean.
    pose proof (cardinal_pos s Hs). field. lra.
Qed.

Lemma chan_sum_stats M shards :
  Forall (fun s => (1 <= length s)%nat) shards ->
  sumQ (map (fun w => inject_Z (Z.of_nat (count w))
                      * (l_var w + (l_mean w - M) * (l_mean w - M)))
            (map batch_norm_stats shards)) ==
  sumsq (concat shards) - 2 * M * sumQ (concat shards)
  + cardinal (concat shards) * M * M.
Proof.
  induction 1 as [|s shards Hs _ IH].
  - unfold sumsq, cardinal. simpl. ring.
  - cbn [map concat sumQ fold_right count l_mean l_var batch_norm_stats]
      in *.
    rewrite sumQ_app, sumsq_app, cardinal_app, IH. fold (cardinal s).
    unfold variance. rewrite sq_dev_sum. unfold mean.
    pose proof (cardinal_pos s Hs). field. lra.
Qed.

(** C8.  For worker shards of at least two values each, with counts
    [c1..cn], means [m1..mn] and variances [v1..vn]: the combined mean is
    sum(ci*mi)/sum(ci), the combined variance is the value of Chan's
    formula (the weighted average of the variances plus the weighted
    variance of the means), and both equal the mean and variance computed
    directly on the concatenation of all shards into one batch. *)
Theorem gather_stats_single_batch (shards : list (list Q)) :
  Forall (fun s => (2 <= length s)%nat) shards ->
  let ws := map batch_norm_stats shards in
  fst (batch_norm_gather_stats_with_counts ws) == weighted_mean ws /\
  snd (batch_norm_gather_stats_with_counts ws) == chan_variance ws /\
  fst (batch_norm_gather_stats_with_counts ws) == mean (concat shards) /\
  snd (batch_norm_gather_stats_with_counts ws) == variance (concat shards).
Proof.
  intros H2 ws.
  assert (Forall (fun s => (1 <= length s)%nat) shards) as H1.
  { eapply Forall_impl; [|exact H2]. simpl. intros; lia. }
  pose proof (gather_merged shards _ _ merged_start H1) as Hm.
  cbn [app] in Hm. fold ws in Hm.
  unfold batch_norm_gather_stats_with_counts.
  destruct (fold_left chan_merge ws (0, 0, 0)) as [[total avg] m2] eqn:E.
  destruct Hm as (Ht & Ha & Hm2). cbn [fst snd].
  destruct shards as [|s shards].
  - subst ws. simpl in E. injection E as <- <- <-.
    unfold weighted_mean, chan_variance, mean, variance, total_count.
    simpl. repeat split; reflexivity.
  - assert (0 < cardinal (concat (s :: shards))) as Hpos.
    { cbn [concat]. rewrite cardinal_app.
      inversion H1; subst.
      pose proof (cardinal_pos s ltac:(assumption)).
      pose proof (cardinal_nonneg (concat shards)). lra. }
    assert (avg == mean (concat (s :: shards))) as Hmean.
    { unfold mean. rewrite <- Ha, Ht. field. lra. }
    assert (m2 / total == variance (concat (s :: shards))) as Hvar.
    { unfold variance. rewrite sq_dev_sum. unfold mean.
      rewrite Hm2, Ht, <- Ha, Ht. field. lra. }
    assert (avg == weighted_mean ws) as Hw.
    { unfold weighted_mean. subst ws.
      rewrite weighted_sum_stats, total_count_stats by assumption.
      exact Hmean. }
    split; [exact Hw|]. split; [|split; assumption].
    unfold chan_variance. subst ws.
    rewrite chan_sum_stats, total_count_stats by assumption.
    rewrite <- Hw, Hm2, Ht, <- Ha, Ht. field. lra.
Qed.

(** The end-to-end scenario of the spec: worker A holds [1, 2, 3] and
    worker B holds [4, 5]; the combined mean is 3 and the combined
    variance is 2. *)
Example gather_stats_two_workers :
  let ws := map batch_norm_stats [[1; 2; 3]; [4; 5]] in
  fst (batch_norm_gather_stats_with_counts ws) == 3 /\
  snd (batch_norm_gather_stats_with_counts ws) == 2.
Proof. split; vm_compute; reflexivity. Qed.

Lemma gather_stats_single_batch_witness :
  let ws := map batch_norm_stats [[1; 2; 3]; [4; 5]] in
  fst (batch_norm_gather_stats_with_counts ws) == mean [1; 2; 3; 4; 5] /\
  snd (batch_norm_gather_stats_with_counts ws) == variance [1; 2; 3; 4; 5].
Proof.
  apply (gather_stats_single_batch [[1; 2; 3]; [4; 5]]).
  repeat constructor.
Defined.

End GatherStatsProperties.

(** ** Further sample runs *)

Abbreviation sample_tracked_module training :=
  (mk_module Sample.tensor Q training true 7%Z
             (Some (Sample.mk_tensor true [3] "running_mean"))
             (Some (Sample.mk_tensor true [3] "running_var"))
             (Some (Sample.mk_tensor true [3] "weight"))
             (Some (Sample.mk_tensor true [3] "bias"))
             (Some (1 # 10)%Q) (1 # 100000)%Q).

Lemma rejected_input_leaves_module_witness :
  fst (sample_forward Sample.needs_all (sample_tracked_module true)
                      (Sample.cpu_tensor [3])) =
    sample_tracked_module true /\
  outcome _ (snd (sample_forward Sample.needs_all
                                 (sample_tracked_module true)
                                 (Sample.cpu_tensor [3]))) =
    Raise (ValueError expected_input_on_GPU).
Proof.
  destruct (rejected_input_leaves_module
           Sample.tensor Q Sample.on_gpu Sample.dims Sample.unsqueeze0
           Sample.batch_norm_stats
           Sample.batch_norm_gather_stats_with_counts
           Sample.batch_norm_elemt Sample.F_batch_norm Sample.size
           Sample.allgather_counts Sample.allgather
           Sample.needs_all (sample_tracked_module true)
           (Sample.cpu_tensor [3]) (or_introl eq_refl))
    as (Hm & _ & Hg & _).
  split; [exact Hm | exact (Hg eq_refl)].
Defined.

Lemma forward_errors_witness :
  plain_path Sample.tensor Q Sample.size (sample_tracked_module true) =
    false /\
  per_channel_count Sample.tensor Sample.dims (Sample.gpu_tensor [1; 3]) =
    Ok 1.
Proof.
  destruct (forward_errors
           Sample.tensor Q Sample.on_gpu Sample.dims Sample.unsqueeze0
           Sample.batch_norm_stats
           Sample.batch_norm_gather_stats_with_counts
           Sample.batch_norm_elemt Sample.F_batch_norm Sample.size
           Sample.allgather_counts Sample.allgather
           Sample.needs_all (sample_tracked_module true)
           (Sample.gpu_tensor [1; 3])
           (ValueError (expected_more_than_1_value_per_channel 1))
           eq_refl)
    as [[E _] | [[E _] | [[E _] | (_ & Hp & H1)]]];
    try discriminate E.
  split; [exact Hp | exact H1].
Defined.

Lemma per_channel_count_shape_witness :
  per_channel_count Sample.tensor Sample.dims
                    (Sample.gpu_tensor [4; 3; 2; 2]) = Ok 16.
Proof.
  apply (per_channel_count_shape
           Sample.tensor Sample.dims (Sample.gpu_tensor [4; 3; 2; 2])
           4 3 [2; 2]).
  - reflexivity.
  - discriminate.
Defined.

Lemma one_sample_error_iff_witness :
  outcome _ (sample_sync_forward
               Sample.needs_all (Sample.gpu_tensor [1; 3; 1; 1])
               None None None None (1 # 100000)%Q (Some (1 # 10)%Q)) =
  Raise (ValueError (expected_more_than_1_value_per_channel 1)).
Proof.
  refine (proj2 (one_sample_error_iff
           Sample.tensor Q Sample.dims Sample.unsqueeze0
           Sample.batch_norm_stats
           Sample.batch_norm_gather_stats_with_counts
           Sample.batch_norm_elemt Sample.allgather_counts Sample.allgather
           Sample.needs_all (Sample.gpu_tensor [1; 3; 1; 1])
           None None None None (1 # 100000)%Q (Some (1 # 10)%Q)
           1 3 [1; 1] eq_refl _) _).
  - discriminate.
  - split; [reflexivity | repeat constructor].
Defined.

Lemma counter_only_counts_tracked_training_witness :
  num_batches_tracked _ _
    (fst (sample_forward Sample.needs_all (sample_tracked_module false)
                         (Sample.gpu_tensor [4; 3]))) = 7%Z.
Proof.
  apply (counter_only_counts_tracked_training
           Sample.tensor Q Sample.on_gpu Sample.dims Sample.unsqueeze0
           Sample.batch_norm_stats
           Sample.batch_norm_gather_stats_with_counts
           Sample.batch_norm_elemt Sample.F_batch_norm Sample.size
           Sample.allgather_counts Sample.allgather
           Sample.needs_all (sample_tracked_module false)
           (Sample.gpu_tensor [4; 3])).
  reflexivity.
Defined.

Lemma error_keeps_running_stats_witness :
  running_mean _ _
    (fst (sample_forward Sample.needs_all (sample_tracked_module true)
                         (Sample.gpu_tensor [1; 3]))) =
    Some (Sample.mk_tensor true [3] "running_mean") /\
  running_var _ _
    (fst (sample_forward Sample.needs_all (sample_tracked_module true)
                         (Sample.gpu_tensor [1; 3]))) =
    Some (Sample.mk_tensor true [3] "running_var").
Proof.
  apply (error_keeps_running_stats
           Sample.tensor Q Sample.on_gpu Sample.dims Sample.unsqueeze0
           Sample.batch_norm_stats
           Sample.batch_norm_gather_stats_with_counts
           Sample.batch_norm_elemt Sample.F_batch_norm Sample.size
           Sample.allgather_counts Sample.allgather
           Sample.needs_all (sample_tracked_module true)
           (Sample.gpu_tensor [1; 3])
           (ValueError (expected_more_than_1_value_per_channel 1))).
  reflexivity.
Defined.

Lemma counter_adds_one_witness :
  num_batches_tracked _ _
    (fst (sample_forward Sample.needs_all (sample_tracked_module true)
                         (Sample.gpu_tensor [4; 3]))) = 8%Z.
Proof.
  apply (counter_adds_one
           Sample.tensor Q Sample.on_gpu Sample.dims Sample.unsqueeze0
           Sample.batch_norm_stats
           Sample.batch_norm_gather_stats_with_counts
           Sample.batch_norm_elemt Sample.F_batch_norm Sample.size
           Sample.allgather_counts Sample.allgather
           Sample.needs_all (sample_tracked_module true)
           (Sample.gpu_tensor [4; 3]) eq_refl eq_refl eq_refl (le_n 2)).
  cbn [num_batches_tracked]. lia.
Defined.

Lemma backward_with_input_grad_witness :
  map (event_name _)
      (trace _ (sample_backward
                  (sample_ctx Sample.needs_all
                              (Some (Sample.mk_tensor true [3] "weight")))
                  (Sample.gpu_tensor [4; 3]))) =
  ["sync_batch_norm.mean_dy"; "sync_batch_norm.mean_dy_xmu";
   "sync_batch_norm.mean_dy"; "sync_batch_norm.mean_dy_xmu"].
Proof.
  exact (proj1 (proj2 (backward_with_input_grad
           Sample.tensor Sample.batch_norm_backward_reduce
           Sample.batch_norm_backward_elemt Sample.allreduce
           (sample_ctx Sample.needs_all
                       (Some (Sample.mk_tensor true [3] "weight")))
           (Sample.gpu_tensor [4; 3]) eq_refl))).
Defined.

Lemma saved_for_backward_matches_output_witness :
  exists mean invstd,
    saved_tensors _ (sample_ctx Sample.needs_all None) =
      (Sample.gpu_tensor [4; 3], None, mean, invstd) /\
    Sample.mk_tensor true [4; 3] "normalized" =
      Sample.batch_norm_elemt (Sample.gpu_tensor [4; 3]) None None
                              mean invstd (1 # 100000)%Q.
Proof.
  exact (proj2 (saved_for_backward_matches_output
           Sample.tensor Q Sample.on_gpu Sample.dims Sample.unsqueeze0
           Sample.batch_norm_stats
           Sample.batch_norm_gather_stats_with_counts
           Sample.batch_norm_elemt Sample.F_batch_norm Sample.size
           Sample.allgather_counts Sample.allgather
           Sample.needs_all (sample_module true true)
           (Sample.gpu_tensor [4; 3])
           (sample_ctx Sample.needs_all None)
           (Sample.mk_tensor true [4; 3] "normalized") eq_refl)).
Defined.

Lemma no_weight_no_parameter_gradients_witness :
  exists grad_input,
    outcome _ (sample_backward (sample_ctx Sample.needs_all None)
                               (Sample.gpu_tensor [4; 3])) =
    Ok [grad_input; None; None; None; None; None; None; None; None].
Proof.
  exact (no_weight_no_parameter_gradients
           Sample.tensor Q Sample.on_gpu Sample.dims Sample.unsqueeze0
           Sample.batch_norm_stats
           Sample.batch_norm_gather_stats_with_counts
           Sample.batch_norm_elemt Sample.batch_norm_backward_reduce
           Sample.batch_norm_backward_elemt Sample.F_batch_norm
           Sample.size Sample.allgather_counts Sample.allgather
           Sample.allreduce
           Sample.needs_all (sample_module true true)
           (Sample.gpu_tensor [4; 3])
           (sample_ctx Sample.needs_all None)
           (Sample.mk_tensor true [4; 3] "normalized")
           (Sample.gpu_tensor [4; 3]) eq_refl eq_refl).
Defined.

Lemma zero_channels_divide_by_zero_witness :
  sample_forward Sample.needs_all (sample_module true true)
                 (Sample.gpu_tensor [4; 0; 2]) =
  (set_num_batches_tracked _ _ (sample_module true true) 8%Z,
   ([], Raise ZeroDivisionError)).
Proof.
  exact (zero_channels_divide_by_zero
           Sample.tensor Q Sample.on_gpu Sample.dims Sample.unsqueeze0
           Sample.batch_norm_stats
           Sample.batch_norm_gather_stats_with_counts
           Sample.batch_norm_elemt Sample.F_batch_norm Sample.size
           Sample.allgather_counts Sample.allgather
           Sample.needs_all (sample_module true true)
           (Sample.gpu_tensor [4; 0; 2]) 4 [2] eq_refl eq_refl eq_refl).
Defined.

Lemma sync_forward_rank_below_2_witness :
  sample_sync_forward Sample.needs_all (Sample.gpu_tensor [3])
                      None None None None
                      (1 # 100000)%Q (Some (1 # 10)%Q) =
  ([], Raise IndexError).
Proof.
  exact (sync_forward_rank_below_2
           Sample.tensor Q Sample.dims Sample.unsqueeze0
           Sample.batch_norm_stats
           Sample.batch_norm_gather_stats_with_counts
           Sample.batch_norm_elemt Sample.allgather_counts Sample.allgather
           Sample.needs_all (Sample.gpu_tensor [3])
           None None None None (1 # 100000)%Q (Some (1 # 10)%Q)
           (le_n 2)).
Defined.

Lemma symmetric_calls_same_names_witness :
  map (event_name _)
      (trace _ (snd (sample_forward
                       Sample.needs_all (sample_module true true)
                       (Sample.gpu_tensor [4; 3])))) =
  map (event_name _)
      (trace _ (snd (sample_forward
                       Sample.needs_none (sample_tracked_module true)
                       (Sample.mk_tensor true [4; 3] "other")))) /\
  map (event_name _)
      (trace _ (sample_backward (sample_ctx Sample.needs_all None)
                                (Sample.gpu_tensor [4; 3]))) =
  map (event_name _)
      (trace _ (sample_backward
                  (sample_ctx Sample.needs_all
                              (Some (Sample.mk_tensor true [3] "weight")))
                  (Sample.mk_tensor true [4; 3] "other"))).
Proof.
  exact (symmetric_calls_same_names
           Sample.tensor Q Sample.on_gpu Sample.dims Sample.unsqueeze0
           Sample.batch_norm_stats
           Sample.batch_norm_gather_stats_with_counts
           Sample.batch_norm_elemt Sample.batch_norm_backward_reduce
           Sample.batch_norm_backward_elemt Sample.F_batch_norm
           Sample.size Sample.allgather_counts Sample.allgather
           Sample.allreduce
           Sample.needs_all Sample.needs_none
           (sample_module true true) (sample_tracked_module true)
           (Sample.gpu_tensor [4; 3])
           (Sample.mk_tensor true [4; 3] "other")
           (sample_ctx Sample.needs_all None)
           (sample_ctx Sample.needs_all
                       (Some (Sample.mk_tensor true [3] "weight")))
           (Sample.gpu_tensor [4; 3])
           (Sample.mk_tensor true [4; 3] "other")
           eq_refl eq_refl eq_refl eq_refl eq_refl).
Defined.

Lemma backward_absent_slots_witness :
  nth_error
    [Some (Sample.mk_tensor true [4; 3] "grad_input");
     Some (Sample.mk_tensor true [3] "grad_weight");
     Some (Sample.mk_tensor true [3] "grad_bias");
     None; None; None; None; None; None] 5 = Some None.
Proof.
  apply (backward_absent_slots
           Sample.tensor Sample.batch_norm_backward_reduce
           Sample.batch_norm_backward_elemt Sample.allreduce
           (sample_ctx Sample.needs_all
                       (Some (Sample.mk_tensor true [3] "weight")))
           (Sample.gpu_tensor [4; 3]) _ 5 arg_eps).
  - reflexivity.
  - reflexivity.
  - left. reflexivity.
Defined.
